(** * StockTradingNotifier: a shallow embedding of [notify.py]

    The script resolves the last two trading days, reads the two closing
    prices from a daily series, computes the percentage change, fetches three
    news articles, renders an SMS text and hands it to the SMS provider.

    Conventions of the embedding:
    - a Python [int] is a [Z]; a Python [float] is a binary64 [float]
      (Rocq's primitive floats), so arithmetic rounds as it does in CPython;
    - a Python [str] is a [string] holding the UTF-8 encoding of the text;
    - a [datetime] is its proleptic Gregorian day number ([date.toordinal()]),
      its time of day and its zone; the representable range of [datetime]
      (years 1 to 9999) is not modelled, the script only ever shifts the
      current time;
    - an exception is a value of [exception], and a call either returns or
      raises ([outcome]);
    - the three providers and the clock are oracles of an [Env]; what the
      script does to the outside world is the [trace] of its events. *)

From Stdlib Require Import ZArith Lia List Ascii String DecimalString.
From Stdlib Require Import Floats.PrimFloat Floats.SpecFloat Floats.FloatOps.
From Stdlib Require Import Numbers.Cyclic.Int63.Uint63.
From stdpp Require Import gmap strings.

(* A decimal literal denotes the nearest binary64 float, as in Python. *)
Set Warnings "-inexact-float".

Local Open Scope string_scope.
Local Open Scope list_scope.
Local Open Scope Z_scope.

(** ** Exceptions and outcomes *)

Inductive exception : Type :=
| ValueError (msg : string)
| KeyError (key : string)
| AttributeError
| ZeroDivisionError
| HTTPError (status : Z)
| ConnectionError
| UnknownTimeZoneError (name : string)
| TwilioRestException (code : Z).

Inductive outcome (A : Type) : Type :=
| Return (a : A)
| Raise (e : exception).

Arguments Return {A} a.
Arguments Raise {A} e.

Definition obind {A B : Type} (o : outcome A) (k : A -> outcome B) : outcome B :=
  match o with
  | Return a => k a
  | Raise e => Raise e
  end.

(** ** Dates *)

Module Date.

Record datetime : Type := mk_datetime {
  ordinal : Z;        (* date.toordinal(): 1 is 0001-01-01, a Monday *)
  microsecond_of_day : Z;
  tzname : string
}.

(** [datetime.weekday()]: Monday is 0 and Sunday is 6. *)
Definition weekday (t : datetime) : Z := (ordinal t + 6) mod 7.

(** [t - timedelta(days=n)]: the wall clock and the zone are kept. *)
Definition sub_days (t : datetime) (n : Z) : datetime :=
  {| ordinal := ordinal t - n;
     microsecond_of_day := microsecond_of_day t;
     tzname := tzname t |}.

(** CPython's [_ord2ymd]: the day number as (year, month, day). *)
Definition DI400Y : Z := 146097.
Definition DI100Y : Z := 36524.
Definition DI4Y : Z := 1461.

Definition DAYS_IN_MONTH (month : Z) : Z :=
  match month with
  | 1 => 31 | 2 => 28 | 3 => 31 | 4 => 30 | 5 => 31 | 6 => 30
  | 7 => 31 | 8 => 31 | 9 => 30 | 10 => 31 | 11 => 30 | 12 => 31
  | _ => 0
  end.

Definition DAYS_BEFORE_MONTH (month : Z) : Z :=
  match month with
  | 1 => 0 | 2 => 31 | 3 => 59 | 4 => 90 | 5 => 120 | 6 => 151
  | 7 => 181 | 8 => 212 | 9 => 243 | 10 => 273 | 11 => 304 | 12 => 334
  | _ => 0
  end.

Definition ord2ymd (n0 : Z) : Z * Z * Z :=
  let n := n0 - 1 in
  let n400 := n / DI400Y in
  let n := n mod DI400Y in
  let year := n400 * 400 + 1 in
  let n100 := n / DI100Y in
  let n := n mod DI100Y in
  let n4 := n / DI4Y in
  let n := n mod DI4Y in
  let n1 := n / 365 in
  let n := n mod 365 in
  let year := year + n100 * 100 + n4 * 4 + n1 in
  if (n1 =? 4) || (n100 =? 4) then (year - 1, 12, 31)
  else
    let leapyear := (n1 =? 3) && (negb (n4 =? 24) || (n100 =? 3)) in
    let month := Z.shiftr (n + 50) 5 in
    let preceding :=
      DAYS_BEFORE_MONTH month + (if (2 <? month) && leapyear then 1 else 0) in
    if n <? preceding then
      let month := month - 1 in
      let preceding :=
        preceding
        - (DAYS_IN_MONTH month + (if (month =? 2) && leapyear then 1 else 0)) in
      (year, month, n - preceding + 1)
    else (year, month, n - preceding + 1).

Definition digit (d : Z) : ascii := ascii_of_N (48 + Z.to_N (d mod 10)).

Definition pad2 (n : Z) : string :=
  String (digit (n / 10)) (String (digit n) EmptyString).

Definition pad4 (n : Z) : string := pad2 (n / 100) +:+ pad2 n.

(** [t.strftime("%Y-%m-%d")], for the four-digit years. *)
Definition strftime_Ymd (t : datetime) : string :=
  let '(y, m, d) := ord2ymd (ordinal t) in
  pad4 y +:+ "-" +:+ pad2 m +:+ "-" +:+ pad2 d.

End Date.

Import Date.

(** ** The market-day resolver *)

(** [__get_date_days_shift(stock_time, days)]. The last [Return None] is
    Python's implicit result when no [if] fires. *)
Definition __get_date_days_shift (stock_time : datetime) (days : Z)
  : outcome (option datetime) :=
  if (days <? 1) || (days >? 2) then
    Raise (ValueError "This function can only shift for maximum 2 days")
  else if ((2 <=? weekday stock_time) && (weekday stock_time <=? 5))
          || ((weekday stock_time =? 1) && (days =? 1)) then
    Return (Some (sub_days stock_time days))
  else if (weekday stock_time =? 0) || (weekday stock_time =? 1) then
    Return (Some (sub_days stock_time (days + 2)))
  else if weekday stock_time =? 6 then
    Return (Some (sub_days stock_time (days + 1)))
  else Return None.

(** ** Floats: Python's [round(x, 2)] *)

Module PyFloat.

(** The nearest integer to [p / 2^k], ties to the even one ([0 <= p], [0 < k]). *)
Definition round_half_even (p k : Z) : Z :=
  let q := p / 2 ^ k in
  let r := p mod 2 ^ k in
  match 2 * r ?= 2 ^ k with
  | Lt => q
  | Gt => q + 1
  | Eq => if Z.even q then q else q + 1
  end.

(** [round(x, 2)] on a float. CPython prints [x] with two decimals, correctly
    rounded (ties to even on the exact binary value), and reads the decimal
    back as the nearest float; infinities and NaN round to themselves.
    With [|x| = m * 2^e] the exact value:
    - from [e = -6] on, the floats around [x] are at least [2^-6] apart while
      the two-decimal value is within [0.005] of [x], so reading back gives [x];
    - below, the number [n] of hundredths is under [2^53], hence exact as a
      float, and the IEEE division [n / 100.0] is the float nearest to the
      decimal. *)
Definition round2 (x : float) : float :=
  match Prim2SF x with
  | S754_finite s m e =>
      if -6 <=? e then x
      else
        let n := round_half_even (Z.pos m * 100) (- e) in
        let r := PrimFloat.div (PrimFloat.of_uint63 (Uint63.of_Z n)) 100%float in
        if s then PrimFloat.opp r else r
  | _ => x
  end.

(** [x / y] on floats: a zero divisor, of either sign, raises. *)
Definition truediv (x y : float) : outcome float :=
  if PrimFloat.eqb y 0%float then Raise ZeroDivisionError
  else Return (PrimFloat.div x y).

End PyFloat.

Import PyFloat.

(** ** The outside world *)

(** [config.py] is not part of the sources: its constants are a record. *)
Record Config : Type := mk_config {
  AV_API_KEY : string;
  NEWS_API_KEY : string;
  TWILIO_ACCOUNT_SID : string;
  TWILIO_AUTH_TOKEN : string;
  TWILIO_SENDER_NUMBER : string;
  TWILIO_RECEIVER_NUMBER : string
}.

(** The JSON body of the price provider, as far as the script reads it:
    [data["Meta Data"]["5. Time Zone"]] and, per date key, the parsed
    [float(data["Time Series (Daily)"][date]["4. close"])]. A missing key is
    [None]. *)
Record daily_data : Type := mk_daily_data {
  meta_time_zone : option string;
  time_series_daily : option (gmap string float)
}.

(** A news article, with the three fields the composer reads. *)
Record article : Type := mk_article {
  title : string;
  description : string;
  url : string
}.

(** The JSON body of the news provider: [data["articles"]]. *)
Record news_data : Type := mk_news_data {
  articles : option (list article)
}.

Record response (A : Type) : Type := mk_response {
  status_code : Z;
  json : A
}.

Arguments mk_response {A} status_code json.
Arguments status_code {A} r.
Arguments json {A} r.

(** What the script does to the outside world, in order. *)
Inductive event : Type :=
| HttpGet (url : string) (params : list (string * string))
| PrintData (data : daily_data)
| PrintLine (line : string)
| SmsCreate (from_ to body : string).

(** The providers and the clock. Each answer may depend on everything that
    happened before, the list of the events so far. *)
Record Env : Type := mk_env {
  alphavantage : list event -> list (string * string) -> outcome (response daily_data);
  newsapi : list event -> list (string * string) -> outcome (response news_data);
  twilio : list event -> string -> string -> string -> outcome string;
  pytz_timezone : string -> outcome string;
  now_astimezone : list event -> string -> datetime
}.

(** ** Computations: events so far in, outcome and events out *)

Definition M (A : Type) : Type := list event -> outcome A * list event.

Definition ret {A : Type} (a : A) : M A := fun tr => (Return a, tr).

Definition raise {A : Type} (e : exception) : M A := fun tr => (Raise e, tr).

Definition bind {A B : Type} (m : M A) (k : A -> M B) : M B :=
  fun tr =>
    match m tr with
    | (Return a, tr') => k a tr'
    | (Raise e, tr') => (Raise e, tr')
    end.

Definition lift {A : Type} (o : outcome A) : M A := fun tr => (o, tr).

Definition emit (e : event) : M unit := fun tr => (Return tt, tr ++ [e]).

Notation "'do' x <- m ; k" := (bind m (fun x => k))
  (at level 10, x name, m at level 100, k at level 200).

(** [d[key]] on a JSON object whose entry may be missing. *)
Definition subscript {A : Type} (entry : option A) (key : string) : M A :=
  match entry with
  | Some a => ret a
  | None => raise (KeyError key)
  end.

(** [response.raise_for_status()]. *)
Definition raise_for_status {A : Type} (r : response A) : M unit :=
  if (400 <=? status_code r) && (status_code r <? 600)
  then raise (HTTPError (status_code r))
  else ret tt.

(** ** Regular expression [<.*?>] and [re.sub] with the empty replacement *)

Module Re.

Definition LT : ascii := "<"%char.
Definition GT : ascii := ">"%char.
Definition NL : ascii := "010"%char.

(** [.*?>] tried at the head of [s]: what is left after the match. The lazy
    star stops at the first [>]; [.] takes any character but the line feed.
    In UTF-8 the bytes of a character beyond ASCII are none of [<], [>] and
    the line feed, so matching byte by byte is matching character by
    character. *)
Fixpoint lazy_any_then_gt (s : string) : option string :=
  match s with
  | EmptyString => None
  | String c s' =>
      if Ascii.eqb c GT then Some s'
      else if Ascii.eqb c NL then None
      else lazy_any_then_gt s'
  end.

(** [<.*?>] tried at the head of [s]. *)
Definition match_tag (s : string) : option string :=
  match s with
  | EmptyString => None
  | String c s' => if Ascii.eqb c LT then lazy_any_then_gt s' else None
  end.

(** [re.sub(a_tags_regex, '', s)]: scan from the left; where the pattern
    matches drop the match and go on behind it, elsewhere keep the character.
    A match takes at least two characters, so [fuel] counts characters. *)
Fixpoint sub_fuel (fuel : nat) (s : string) : string :=
  match fuel with
  | O => s
  | S fuel' =>
      match match_tag s with
      | Some rest => sub_fuel fuel' rest
      | None =>
          match s with
          | EmptyString => EmptyString
          | String c s' => String c (sub_fuel fuel' s')
          end
      end
  end.

Definition sub (s : string) : string := sub_fuel (String.length s) s.

(** [re.search(a_tags_regex, s) is not None]. *)
Fixpoint search (s : string) : bool :=
  match match_tag s with
  | Some _ => true
  | None =>
      match s with
      | EmptyString => false
      | String _ s' => search s'
      end
  end.

(** [c in s]. *)
Fixpoint contains_char (c : ascii) (s : string) : bool :=
  match s with
  | EmptyString => false
  | String c' s' => Ascii.eqb c c' || contains_char c s'
  end.

End Re.

(** ** The stripping as the specification words it *)

(** Section 4.4 and section 8 of the specification: "any [<...>] markup in a
    description is fully removed". Here a group runs from a [<] to the next
    [>], whatever lies between, a line feed too. This is not the code: it
    is what [Re.sub] is compared with. *)
Module SpecStrip.

(** The text behind the next [>], if there is one. *)
Fixpoint any_then_gt (s : string) : option string :=
  match s with
  | EmptyString => None
  | String c s' => if Ascii.eqb c Re.GT then Some s' else any_then_gt s'
  end.

Definition match_group (s : string) : option string :=
  match s with
  | EmptyString => None
  | String c s' => if Ascii.eqb c Re.LT then any_then_gt s' else None
  end.

Fixpoint strip_fuel (fuel : nat) (s : string) : string :=
  match fuel with
  | O => s
  | S fuel' =>
      match match_group s with
      | Some rest => strip_fuel fuel' rest
      | None =>
          match s with
          | EmptyString => EmptyString
          | String c s' => String c (strip_fuel fuel' s')
          end
      end
  end.

Definition strip (s : string) : string := strip_fuel (String.length s) s.

End SpecStrip.

(** ** The script *)

Section Script.

Variable config : Config.
Variable env : Env.

(** [str(x)] of a float, as the f-string of [create_sms] renders it. *)
Variable str_float : float -> string.

Definition STOCKS : list string := ["TSLA"; "FB"; "SIEGY"; "AAPL"; "AMZN"].
Definition COMPANIES : list string :=
  ["Tesla Inc"; "Facebook Inc"; "SIEMENS AG"; "Apple Inc"; "Amazon.com Inc"].

(** [__get_stock_time(stock_tz)]: [datetime.now().astimezone(stock_tz)]. *)
Definition __get_stock_time (stock_tz : string) : M datetime :=
  fun tr => (Return (now_astimezone env tr stock_tz), tr).

(** [t.strftime("%Y-%m-%d")] on the resolver's result; on [None] the
    attribute lookup fails. *)
Definition strftime (t : option datetime) : M string :=
  match t with
  | Some t => ret (strftime_Ymd t)
  | None => raise AttributeError
  end.

Definition get_stock_difference (stock_symbol : string) : M float :=
  let av_params :=
    [("function", "TIME_SERIES_DAILY"); ("symbol", stock_symbol);
     ("apikey", AV_API_KEY config)] in
  do _ <- emit (HttpGet "https://www.alphavantage.co/query" av_params);
  do response <- (fun tr => (alphavantage env tr av_params, tr));
  do _ <- raise_for_status response;
  let stock_daily_data := json response in
  do tz_name <- subscript (meta_time_zone stock_daily_data) "5. Time Zone";
  do stock_timezone <- lift (pytz_timezone env tz_name);
  do _ <- emit (PrintData stock_daily_data);
  do stock_t <- __get_stock_time stock_timezone;
  do yesterday_stock_t <- lift (__get_date_days_shift stock_t 1);
  do two_days_ago_stock_t <- lift (__get_date_days_shift stock_t 2);
  do series <- subscript (time_series_daily stock_daily_data) "Time Series (Daily)";
  do yesterday_key <- strftime yesterday_stock_t;
  do yesterday_close <- subscript (series !! yesterday_key) yesterday_key;
  do series <- subscript (time_series_daily stock_daily_data) "Time Series (Daily)";
  do two_days_ago_key <- strftime two_days_ago_stock_t;
  do two_days_ago_close <- subscript (series !! two_days_ago_key) two_days_ago_key;
  let different := round2 (PrimFloat.sub yesterday_close two_days_ago_close) in
  do quotient <- lift (truediv (PrimFloat.mul different 100%float) yesterday_close);
  ret (round2 quotient).

(** [l[:3]]. *)
Definition slice3 {A : Type} (l : list A) : list A := take 3 l.

Definition get_news (company_name : string) : M (list article) :=
  let news_params := [("q", company_name); ("apiKey", NEWS_API_KEY config)] in
  do _ <- emit (HttpGet "https://newsapi.org/v2/everything" news_params);
  do response <- (fun tr => (newsapi env tr news_params, tr));
  do _ <- raise_for_status response;
  let news_data := json response in
  do all <- subscript (articles news_data) "articles";
  ret (slice3 all).

Definition UP : string := "🔺".
Definition DOWN : string := "🔻".
Definition LF : string := String Re.NL EmptyString.

(** The header of [create_sms], line 104. *)
Definition header (stock_difference : float) (company_name : string) : string :=
  company_name +:+ ": "
  +:+ (if PrimFloat.ltb 0%float stock_difference then UP else DOWN)
  +:+ str_float stock_difference +:+ "%" +:+ LF +:+ LF.

(** The body of the [for] loop of [create_sms], lines 106-109. *)
Definition block (highlight : article) : string :=
  let headline := "Headline: " +:+ title highlight +:+ LF in
  let brief := Re.sub ("Brief: " +:+ description highlight +:+ LF) in
  let url := "Link: " +:+ url highlight +:+ LF in
  headline +:+ brief +:+ url +:+ LF.

Definition create_sms (stock_difference : float) (stock_highlights : list article)
  (company_name : string) : string :=
  fold_left (fun sms highlight => sms +:+ block highlight)
    stock_highlights (header stock_difference company_name).

Definition send_message (message : string) : M unit :=
  if String.eqb message "" then ret tt
  else
    do _ <- emit (SmsCreate (TWILIO_SENDER_NUMBER config)
                            (TWILIO_RECEIVER_NUMBER config) message);
    do status <- (fun tr => (twilio env tr (TWILIO_SENDER_NUMBER config)
                                    (TWILIO_RECEIVER_NUMBER config) message, tr));
    emit (PrintLine status).

(** One turn of the loop of [main]. *)
Definition notify (stock_symbol company_name : string) : M unit :=
  do stock_difference <- get_stock_difference stock_symbol;
  do stock_highlights <- get_news company_name;
  let sms := create_sms stock_difference stock_highlights company_name in
  send_message sms.

(** [for x in l: body(x)]: the first exception ends the loop. *)
Fixpoint for_each {A : Type} (body : A -> M unit) (l : list A) : M unit :=
  match l with
  | [] => ret tt
  | x :: l' => do _ <- body x; for_each body l'
  end.

Definition main : M unit :=
  for_each (fun p => notify (fst p) (snd p)) (zip STOCKS COMPANIES).

(** *** Vocabulary of the properties *)

(** The blocks of the articles, one after the other. *)
Definition blocks (stock_highlights : list article) : string :=
  fold_right (fun highlight rest => block highlight +:+ rest) EmptyString
    stock_highlights.

(** The request that [send_message] submits for a message. *)
Definition request (message : string) : event :=
  SmsCreate (TWILIO_SENDER_NUMBER config) (TWILIO_RECEIVER_NUMBER config) message.

(** The query of [get_stock_difference]. *)
Definition av_params (stock_symbol : string) : list (string * string) :=
  [("function", "TIME_SERIES_DAILY"); ("symbol", stock_symbol);
   ("apikey", AV_API_KEY config)].

(** After the events [tr] the price provider answers the query for
    [stock_symbol] without an HTTP error, with a known time zone and a daily
    series in which the resolved yesterday closes at [yesterday_close] and
    the resolved day before at [two_days_ago_close]; [tr'] are the events
    after the query and the print. *)
Definition closes (stock_symbol : string) (tr : list event)
  (yesterday_close two_days_ago_close : float) (tr' : list event) : Prop :=
  exists (r : response daily_data) (tz_name tz : string)
         (series : gmap string float) (yesterday two_days_ago : datetime),
    alphavantage env
      (tr ++ [HttpGet "https://www.alphavantage.co/query" (av_params stock_symbol)])
      (av_params stock_symbol) = Return r
    /\ (status_code r < 400 \/ 600 <= status_code r)
    /\ meta_time_zone (json r) = Some tz_name
    /\ pytz_timezone env tz_name = Return tz
    /\ tr' = (tr ++ [HttpGet "https://www.alphavantage.co/query"
                       (av_params stock_symbol)])
             ++ [PrintData (json r)]
    /\ __get_date_days_shift (now_astimezone env tr' tz) 1 = Return (Some yesterday)
    /\ __get_date_days_shift (now_astimezone env tr' tz) 2 = Return (Some two_days_ago)
    /\ time_series_daily (json r) = Some series
    /\ series !! strftime_Ymd yesterday = Some yesterday_close
    /\ series !! strftime_Ymd two_days_ago = Some two_days_ago_close.

End Script.

(** The SMS requests among the events, in order. *)
Definition sms_requests (tr : list event) : list event :=
  List.filter (fun e => match e with SmsCreate _ _ _ => true | _ => false end) tr.

(** The formula of the specification, section 4.2: the difference times 100,
    divided by yesterday's close, rounded once. *)
Definition spec_percentage (close_yesterday close_two_days_ago : float) : float :=
  round2 (PrimFloat.div
            (PrimFloat.mul (PrimFloat.sub close_yesterday close_two_days_ago) 100%float)
            close_yesterday).

(** ** A sample world *)

(** [str(x)] for the floats that [round(_, 2)] returns, below [1e16] in
    absolute value: the decimal with one or two digits after the point that
    Python prints for them. *)
Definition str_cents (x : float) : string :=
  match Prim2SF x with
  | S754_zero s => if s then "-0.0" else "0.0"
  | S754_infinity s => if s then "-inf" else "inf"
  | S754_nan => "nan"
  | S754_finite s m e =>
      let n :=
        if 0 <=? e then Z.pos m * 2 ^ e * 100
        else round_half_even (Z.pos m * 100) (- e) in
      let units := NilZero.string_of_uint (N.to_uint (Z.to_N (n / 100))) in
      let cents := n mod 100 in
      let decimals :=
        if cents mod 10 =? 0 then String (digit (cents / 10)) EmptyString
        else pad2 cents in
      (if s then "-" else "") +:+ units +:+ "." +:+ decimals
  end.

(** Monday 15 June 2020, 09:30 New York time. *)
Definition monday_2020_06_15 : datetime :=
  {| ordinal := 737591; microsecond_of_day := 34200000000; tzname := "US/Eastern" |}.

Definition sample_config : Config :=
  {| AV_API_KEY := "av-key"; NEWS_API_KEY := "news-key";
     TWILIO_ACCOUNT_SID := "sid"; TWILIO_AUTH_TOKEN := "token";
     TWILIO_SENDER_NUMBER := "+15550100"; TWILIO_RECEIVER_NUMBER := "+15550199" |}.

Definition sample_articles : list article :=
  [ {| title := "Deliveries up"; description := "A <b>record</b> quarter";
       url := "https://news.example/1" |};
    {| title := "New plant"; description := "Opens <a href='x'>soon</a>";
       url := "https://news.example/2" |};
    {| title := "Recall"; description := "Minor"; url := "https://news.example/3" |};
    {| title := "Fourth"; description := "Not sent"; url := "https://news.example/4" |} ].

(** A world whose price provider answers with the given closes for Friday
    12 June and Thursday 11 June 2020, on a Monday morning. *)
Definition sample_env (friday thursday : float) : Env :=
  {| alphavantage := fun _ _ =>
       Return (mk_response 200
                 {| meta_time_zone := Some "US/Eastern";
                    time_series_daily :=
                      Some {[ "2020-06-12" := friday; "2020-06-11" := thursday ]} |});
     newsapi := fun _ _ =>
       Return (mk_response 200 {| articles := Some sample_articles |});
     twilio := fun _ _ _ _ => Return "queued";
     pytz_timezone := fun name => Return name;
     now_astimezone := fun _ _ => monday_2020_06_15 |}.

(** [float("0.9960")]. *)
Definition close_0_996 : float := 0x1.fdf3b645a1cacp-1%float.

(** An article whose description has a tag broken over two lines. *)
Definition two_line_tag_article : article :=
  {| title := "News"; description := "<b" +:+ LF +:+ ">bold";
     url := "https://news.example/5" |}.

(** The events of one price query in the sample world. *)
Definition sample_price_events (friday thursday : float) : list event :=
  [HttpGet "https://www.alphavantage.co/query" (av_params sample_config "TSLA");
   PrintData {| meta_time_zone := Some "US/Eastern";
                time_series_daily :=
                  Some {[ "2020-06-12" := friday; "2020-06-11" := thursday ]} |}].

(** The returned float, as sign, mantissa and exponent. *)
Definition returned_bits (o : outcome float) : option spec_float :=
  match o with
  | Return x => Some (Prim2SF x)
  | Raise _ => None
  end.

(** After the events [tr] the price provider answers the query for
    [stock_symbol] without an HTTP error, with a known time zone and the
    daily series [series]; [tr'] are the events after the query and the
    print, and [stock_time] is the current time in the zone of the stock. *)
Definition answers (config : Config) (env : Env) (stock_symbol : string)
  (tr : list event) (series : gmap string float) (stock_time : datetime)
  (tr' : list event) : Prop :=
  exists (r : response daily_data) (tz_name tz : string),
    alphavantage env
      (tr ++ [HttpGet "https://www.alphavantage.co/query"
                (av_params config stock_symbol)])
      (av_params config stock_symbol) = Return r
    /\ (status_code r < 400 \/ 600 <= status_code r)
    /\ meta_time_zone (json r) = Some tz_name
    /\ pytz_timezone env tz_name = Return tz
    /\ tr' = (tr ++ [HttpGet "https://www.alphavantage.co/query"
                       (av_params config stock_symbol)])
             ++ [PrintData (json r)]
    /\ stock_time = now_astimezone env tr' tz
    /\ time_series_daily (json r) = Some series.

(** A world as [sample_env 100 98], but the price provider is down (HTTP
    503) for FB, its series lacks Friday 12 June 2020 for SIEGY and Thursday
    11 June 2020 for AAPL, and the news provider refuses the query for
    Amazon (HTTP 429). *)
Definition outage_env : Env :=
  {| alphavantage := fun _ params =>
       match params with
       | [_; (_, symbol); _] =>
           if String.eqb symbol "FB" then
             Return (mk_response 503
                       {| meta_time_zone := None; time_series_daily := None |})
           else if String.eqb symbol "SIEGY" then
             Return (mk_response 200
                       {| meta_time_zone := Some "US/Eastern";
                          time_series_daily :=
                            Some {[ "2020-06-11" := 98%float ]} |})
           else if String.eqb symbol "AAPL" then
             Return (mk_response 200
                       {| meta_time_zone := Some "US/Eastern";
                          time_series_daily :=
                            Some {[ "2020-06-12" := 100%float ]} |})
           else alphavantage (sample_env 100 98) [] params
       | _ => Raise ConnectionError
       end;
     newsapi := fun _ params =>
       match params with
       | [(_, query); _] =>
           if String.eqb query "Amazon.com Inc" then
             Return (mk_response 429 {| articles := Some sample_articles |})
           else newsapi (sample_env 100 98) [] params
       | _ => Raise ConnectionError
       end;
     twilio := twilio (sample_env 100 98);
     pytz_timezone := pytz_timezone (sample_env 100 98);
     now_astimezone := now_astimezone (sample_env 100 98) |}.

(** The events of one price query in that world. *)
Definition outage_price_events (stock_symbol : string) (series : gmap string float)
  : list event :=
  [HttpGet "https://www.alphavantage.co/query" (av_params sample_config stock_symbol);
   PrintData {| meta_time_zone := Some "US/Eastern";
                time_series_daily := Some series |}].

(** A body that [create_sms] made for a company. *)
Definition composed_for (body company_name : string) : Prop :=
  body <> "" /\ exists rest, body = company_name +:+ ": " +:+ rest.

(** * Properties *)

(** ** The market-day resolver *)

Example strftime_monday : strftime_Ymd monday_2020_06_15 = "2020-06-15".
Proof. reflexivity. Qed.

Example yesterday_of_monday :
  option_map strftime_Ymd
    (match __get_date_days_shift monday_2020_06_15 1 with
     | Return d => d
     | Raise _ => None
     end) = Some "2020-06-12".
Proof. reflexivity. Qed.

Lemma weekday_range (t : datetime) : 0 <= weekday t <= 6.
Proof. unfold weekday. pose proof (Z.mod_pos_bound (ordinal t + 6) 7). lia. Qed.

Lemma weekday_sub_days (t : datetime) (n : Z) :
  weekday (sub_days t n) = (weekday t - n) mod 7.
Proof.
  unfold weekday, sub_days. cbn [ordinal].
  rewrite Zminus_mod_idemp_l. f_equal. lia.
Qed.

(** Splits the guard of the resolver on a shift that passed validation. *)
Ltac resolver_cases t days :=
  unfold __get_date_days_shift;
  rewrite Z.gtb_ltb;
  pose proof (weekday_range t);
  repeat match goal with
         | |- context [Z.ltb ?a ?b] => destruct (Z.ltb_spec a b)
         | |- context [Z.leb ?a ?b] => destruct (Z.leb_spec a b)
         | |- context [Z.eqb ?a ?b] => destruct (Z.eqb_spec a b)
         end;
  cbn [orb andb negb].

(** C2: for a shift of 1 or 2 the resolver returns the current time minus
    [shift] days from Wednesday to Saturday and on a Tuesday with shift 1,
    minus [shift + 2] days on a Monday and on a Tuesday with shift 2, and
    minus [shift + 1] days on a Sunday. *)
Theorem resolver_shift_by_weekday (stock_time : datetime) (days : Z) :
  days = 1 \/ days = 2 ->
  (2 <= weekday stock_time <= 5 \/ (weekday stock_time = 1 /\ days = 1) ->
   __get_date_days_shift stock_time days
   = Return (Some (sub_days stock_time days)))
  /\ (weekday stock_time = 0 \/ (weekday stock_time = 1 /\ days = 2) ->
      __get_date_days_shift stock_time days
      = Return (Some (sub_days stock_time (days + 2))))
  /\ (weekday stock_time = 6 ->
      __get_date_days_shift stock_time days
      = Return (Some (sub_days stock_time (days + 1)))).
Proof.
  intros Hdays. repeat split; intros Hwd;
    resolver_cases stock_time days; try reflexivity; lia.
Qed.

Lemma resolver_shift_by_weekday_witness :
  (1 = 1 \/ 1 = 2)
  /\ __get_date_days_shift monday_2020_06_15 1
     = Return (Some (sub_days monday_2020_06_15 (1 + 2))).
Proof.
  split; [left; reflexivity |].
  apply (proj1 (proj2 (resolver_shift_by_weekday monday_2020_06_15 1
                         (or_introl eq_refl)))).
  left. reflexivity.
Defined.

(** C3: for a shift of 1 or 2 the resolver returns a date, and that date is a
    Monday, Tuesday, Wednesday, Thursday or Friday, whatever the weekday of the
    current time. *)
Theorem resolver_returns_trading_day (stock_time : datetime) (days : Z) :
  days = 1 \/ days = 2 ->
  exists d : datetime,
    __get_date_days_shift stock_time days = Return (Some d)
    /\ 0 <= weekday d <= 4.
Proof.
  intros Hdays.
  assert (Hmod : forall n, weekday (sub_days stock_time n)
                           = (weekday stock_time - n) mod 7)
    by (intros n; apply weekday_sub_days).
  resolver_cases stock_time days; try lia;
    (eexists; split; [reflexivity |]); rewrite Hmod;
    Z.div_mod_to_equations; lia.
Qed.

Lemma resolver_returns_trading_day_witness :
  (2 = 1 \/ 2 = 2)
  /\ exists d : datetime,
       __get_date_days_shift monday_2020_06_15 2 = Return (Some d)
       /\ 0 <= weekday d <= 4.
Proof.
  split; [right; reflexivity |].
  apply (resolver_returns_trading_day monday_2020_06_15 2).
  right. reflexivity.
Defined.

(** C4: a shift below 1 or above 2 makes the resolver raise [ValueError],
    at every current time. *)
Theorem resolver_rejects_other_shifts (stock_time : datetime) (days : Z) :
  days < 1 \/ 2 < days ->
  __get_date_days_shift stock_time days
  = Raise (ValueError "This function can only shift for maximum 2 days").
Proof.
  intros Hdays. unfold __get_date_days_shift. rewrite Z.gtb_ltb.
  destruct (Z.ltb_spec days 1), (Z.ltb_spec 2 days); cbn [orb];
    try reflexivity; lia.
Qed.

Lemma resolver_rejects_other_shifts_witness :
  (3 < 1 \/ 2 < 3)
  /\ __get_date_days_shift monday_2020_06_15 3
     = Raise (ValueError "This function can only shift for maximum 2 days").
Proof.
  split; [right; lia |].
  apply (resolver_rejects_other_shifts monday_2020_06_15 3).
  right. lia.
Defined.

(** ** The regular expression *)

Module ReFacts.

Import Re.

Lemma append_empty (t : string) : EmptyString +:+ t = t.
Proof. reflexivity. Qed.

Lemma append_cons (c : ascii) (s t : string) : String c s +:+ t = String c (s +:+ t).
Proof. reflexivity. Qed.

Lemma lazy_any_then_gt_shorter (s rest : string) :
  lazy_any_then_gt s = Some rest -> (String.length rest < String.length s)%nat.
Proof.
  revert rest. induction s as [| c s IH]; intros rest; cbn.
  - discriminate.
  - destruct (Ascii.eqb c GT).
    + intros [= <-]. lia.
    + destruct (Ascii.eqb c NL); [discriminate |].
      intros H. apply IH in H. lia.
Qed.

Lemma match_tag_shorter (s rest : string) :
  match_tag s = Some rest -> (String.length rest < String.length s)%nat.
Proof.
  destruct s as [| c s]; cbn; [discriminate |].
  destruct (Ascii.eqb c LT); [| discriminate].
  intros H. apply lazy_any_then_gt_shorter in H. lia.
Qed.

(** Any fuel from the length of the text on gives the same result. *)
Lemma sub_fuel_enough (fuel : nat) :
  forall s : string, (String.length s <= fuel)%nat -> sub_fuel fuel s = sub s.
Proof.
  assert (Hany : forall f1 f2 s,
             (String.length s <= f1)%nat -> (String.length s <= f2)%nat ->
             sub_fuel f1 s = sub_fuel f2 s).
  { induction f1 as [| f1 IH]; intros f2 s H1 H2.
    - destruct s; [| cbn in H1; lia]. destruct f2; reflexivity.
    - destruct f2 as [| f2].
      + destruct s; [reflexivity | cbn in H2; lia].
      + cbn [sub_fuel]. destruct (match_tag s) as [rest |] eqn:Hm.
        * apply match_tag_shorter in Hm. apply IH; lia.
        * destruct s as [| c s]; [reflexivity |].
          cbn in H1, H2. f_equal. apply IH; lia. }
  intros s Hs. unfold sub. apply Hany; [exact Hs | lia].
Qed.

Lemma sub_empty : sub EmptyString = EmptyString.
Proof. reflexivity. Qed.

Lemma sub_match (s rest : string) :
  match_tag s = Some rest -> sub s = sub rest.
Proof.
  intros Hm. pose proof (match_tag_shorter _ _ Hm) as Hlen.
  unfold sub at 1. destruct (String.length s) as [| n] eqn:Hn; [lia |].
  cbn [sub_fuel]. rewrite Hm. apply sub_fuel_enough. lia.
Qed.

Lemma sub_keep (c : ascii) (s : string) :
  match_tag (String c s) = None -> sub (String c s) = String c (sub s).
Proof.
  intros Hm. unfold sub at 1. cbn [String.length sub_fuel]. rewrite Hm.
  reflexivity.
Qed.

Lemma sub_cons_other (c : ascii) (s : string) :
  Ascii.eqb c LT = false -> sub (String c s) = String c (sub s).
Proof. intros Hc. apply sub_keep. cbn. rewrite Hc. reflexivity. Qed.

(** Induction along the scan of [sub]. *)
Lemma sub_ind (P : string -> Prop) :
  P EmptyString ->
  (forall s rest, match_tag s = Some rest -> P rest -> P s) ->
  (forall c s, match_tag (String c s) = None -> P s -> P (String c s)) ->
  forall s, P s.
Proof.
  intros Hnil Hmatch Hkeep s.
  remember (String.length s) as n eqn:Hn.
  revert s Hn. induction n as [n IH] using lt_wf_ind. intros s ->.
  destruct (match_tag s) as [rest |] eqn:Hm.
  - apply (Hmatch s rest Hm).
    apply (IH (String.length rest)); [apply match_tag_shorter, Hm | reflexivity].
  - destruct s as [| c s]; [exact Hnil |].
    apply (Hkeep c s Hm). apply (IH (String.length s)); [cbn; lia | reflexivity].
Qed.

(** A [<] that finds no [>] on its line finds none after the substitution. *)
Lemma lazy_any_then_gt_sub (s : string) :
  lazy_any_then_gt s = None -> lazy_any_then_gt (sub s) = None.
Proof.
  induction s as [| c s IH]; [reflexivity |].
  cbn [lazy_any_then_gt].
  destruct (Ascii.eqb c GT) eqn:Hgt; [discriminate |].
  destruct (Ascii.eqb c NL) eqn:Hnl.
  - intros _. rewrite sub_cons_other.
    + cbn [lazy_any_then_gt]. rewrite Hgt, Hnl. reflexivity.
    + apply Ascii.eqb_eq in Hnl. subst c. reflexivity.
  - intros Hs. rewrite sub_keep.
    + cbn [lazy_any_then_gt]. rewrite Hgt, Hnl. apply IH, Hs.
    + cbn [match_tag]. destruct (Ascii.eqb c LT); [exact Hs | reflexivity].
Qed.

(** The pattern matches nowhere in the result of the substitution. *)
Lemma search_sub (s : string) : search (sub s) = false.
Proof.
  induction s as [| s rest Hm IH | c s Hm IH] using sub_ind.
  - reflexivity.
  - rewrite (sub_match _ _ Hm). exact IH.
  - rewrite (sub_keep _ _ Hm).
    assert (Hm' : match_tag (String c (sub s)) = None).
    { cbn [match_tag] in Hm |- *. destruct (Ascii.eqb c LT); [| reflexivity].
      apply lazy_any_then_gt_sub, Hm. }
    cbn [search]. rewrite Hm'. exact IH.
Qed.

Lemma lazy_any_then_gt_finds (mid post : string) :
  contains_char NL mid = false ->
  exists rest, lazy_any_then_gt (mid +:+ String GT post) = Some rest.
Proof.
  induction mid as [| c mid IH];
    rewrite ?append_empty, ?append_cons; cbn [contains_char lazy_any_then_gt].
  - intros _. rewrite Ascii.eqb_refl. eexists. reflexivity.
  - intros H. apply orb_false_iff in H as [Hc Hmid].
    destruct (Ascii.eqb c GT); [eexists; reflexivity |].
    rewrite Ascii.eqb_sym, Hc. apply IH, Hmid.
Qed.

(** [search] finds every [<], ..., [>] that lies on one line. *)
Lemma search_finds (pre mid post : string) :
  contains_char NL mid = false ->
  search (pre +:+ String LT (mid +:+ String GT post)) = true.
Proof.
  intros Hmid. induction pre as [| c pre IH].
  - destruct (lazy_any_then_gt_finds mid post Hmid) as [rest Hrest].
    rewrite append_empty. cbn [search match_tag].
    rewrite Ascii.eqb_refl, Hrest. reflexivity.
  - rewrite append_cons. cbn [search].
    destruct (match_tag _); [reflexivity | exact IH].
Qed.

(** A text without [<] is left as it is. *)
Lemma sub_without_lt (s : string) : contains_char LT s = false -> sub s = s.
Proof.
  induction s as [| c s IH]; [reflexivity |].
  cbn [contains_char]. intros H. apply orb_false_iff in H as [Hc Hs].
  rewrite sub_cons_other by (rewrite Ascii.eqb_sym; exact Hc).
  f_equal. apply IH, Hs.
Qed.

Lemma lazy_any_then_gt_line (s : string) :
  lazy_any_then_gt (s +:+ String NL EmptyString)
  = option_map (fun rest => rest +:+ String NL EmptyString) (lazy_any_then_gt s).
Proof.
  induction s as [| c s IH]; [reflexivity |].
  rewrite append_cons. cbn [lazy_any_then_gt].
  destruct (Ascii.eqb c GT); [reflexivity |].
  destruct (Ascii.eqb c NL); [reflexivity | exact IH].
Qed.

(** The line feed that ends a line takes no part in the substitution. *)
Lemma sub_line (s : string) :
  sub (s +:+ String NL EmptyString) = sub s +:+ String NL EmptyString.
Proof.
  induction s as [| s rest Hm IH | c s Hm IH] using sub_ind.
  - reflexivity.
  - rewrite (sub_match _ _ Hm), <- IH. apply sub_match.
    destruct s as [| c s]; [discriminate |].
    rewrite append_cons. cbn [match_tag] in Hm |- *.
    destruct (Ascii.eqb c LT); [| discriminate].
    rewrite lazy_any_then_gt_line, Hm. reflexivity.
  - rewrite (sub_keep _ _ Hm), !append_cons, <- IH.
    apply sub_keep.
    cbn [match_tag] in Hm |- *.
    destruct (Ascii.eqb c LT); [| reflexivity].
    rewrite lazy_any_then_gt_line, Hm. reflexivity.
Qed.

End ReFacts.

(** ** The message composer *)

Section Composer.

Import ReFacts.

Variable str_float : float -> string.

Lemma append_assoc (s t u : string) : (s +:+ t) +:+ u = s +:+ (t +:+ u).
Proof.
  induction s as [| c s IH]; [reflexivity |].
  rewrite !append_cons, IH. reflexivity.
Qed.

Lemma append_not_empty (s t : string) : t <> EmptyString -> s +:+ t <> EmptyString.
Proof. destruct s; [intros H; exact H | rewrite append_cons; discriminate]. Qed.


Lemma blocks_app (l1 l2 : list article) : blocks (l1 ++ l2) = blocks l1 +:+ blocks l2.
Proof.
  induction l1 as [| a l1 IH]; [reflexivity |].
  cbn [blocks fold_right app] in *. rewrite append_assoc. f_equal. exact IH.
Qed.

Lemma fold_left_blocks (stock_highlights : list article) (sms : string) :
  fold_left (fun sms highlight => sms +:+ block highlight) stock_highlights sms
  = sms +:+ blocks stock_highlights.
Proof.
  revert sms. induction stock_highlights as [| a l IH]; intros sms; cbn.
  - clear. induction sms as [| c sms IH]; [reflexivity |].
    rewrite append_cons, <- IH. reflexivity.
  - rewrite IH, append_assoc. reflexivity.
Qed.

(** The message is the header and then the blocks. *)
Lemma create_sms_blocks (d : float) (hs : list article) (company_name : string) :
  create_sms str_float d hs company_name
  = header str_float d company_name +:+ blocks hs.
Proof. apply fold_left_blocks. Qed.

(** The substitution only touches the description inside the brief. *)
Lemma sub_brief (text : string) :
  Re.sub ("Brief: " +:+ text +:+ LF) = "Brief: " +:+ Re.sub text +:+ LF.
Proof.
  change ("Brief: " +:+ text +:+ LF)
    with (String "B" (String "r" (String "i" (String "e" (String "f"
            (String ":" (String " " (text +:+ LF)))))))).
  rewrite !sub_cons_other by reflexivity.
  unfold LF. rewrite sub_line. reflexivity.
Qed.

Lemma block_unfold (a : article) :
  block a
  = ("Headline: " +:+ title a +:+ LF)
    +:+ ("Brief: " +:+ Re.sub (description a) +:+ LF)
    +:+ ("Link: " +:+ url a +:+ LF) +:+ LF.
Proof.
  unfold block. rewrite sub_brief, !append_assoc. reflexivity.
Qed.

End Composer.

Section ComposerClaims.

Import ReFacts.

Variable str_float : float -> string.


(** What the substitution does reach: for every article of the list, the
    message holds
    the line "Brief: " followed by the description from which every match of
    [<.*?>] is removed. In that text the pattern matches nowhere: no [<] is
    followed by a [>] on the same line. (A [<] and a [>] with a line feed
    between them are not a match.) A description without [<] is kept as it
    is. *)
Theorem brief_strips_one_line_tags (d : float) (hs : list article)
  (company_name : string) (a : article) :
  In a hs ->
  (exists pre post,
      create_sms str_float d hs company_name
      = pre +:+ ("Brief: " +:+ Re.sub (description a) +:+ LF) +:+ post)
  /\ Re.search (Re.sub (description a)) = false
  /\ (forall pre mid post,
         Re.contains_char Re.NL mid = false ->
         Re.sub (description a)
         <> pre +:+ String Re.LT (mid +:+ String Re.GT post))
  /\ (Re.contains_char Re.LT (description a) = false ->
      Re.sub (description a) = description a).
Proof.
  intros Ha. split; [| split; [| split]]; [| | | apply sub_without_lt].
  - apply in_split in Ha as (l1 & l2 & ->).
    rewrite create_sms_blocks, blocks_app.
    cbn [blocks fold_right]. fold (blocks l2). rewrite block_unfold.
    exists (header str_float d company_name +:+ blocks l1
            +:+ "Headline: " +:+ title a +:+ LF).
    exists (("Link: " +:+ url a +:+ LF) +:+ LF +:+ blocks l2).
    rewrite !append_assoc. reflexivity.
  - apply search_sub.
  - intros pre mid post Hmid Heq.
    pose proof (search_sub (description a)) as Hnone.
    rewrite Heq, search_finds in Hnone by exact Hmid. discriminate.
Qed.

(** The message is never the empty string. *)
Lemma create_sms_not_empty (d : float) (hs : list article) (company_name : string) :
  create_sms str_float d hs company_name <> EmptyString.
Proof.
  rewrite create_sms_blocks. unfold header. rewrite !append_assoc.
  apply append_not_empty. discriminate.
Qed.

End ComposerClaims.

(** ** The notifier, the news fetcher and the price-change calculator *)

Section ScriptClaims.

Variable config : Config.
Variable env : Env.
Variable str_float : float -> string.

Lemma sms_requests_app (tr1 tr2 : list event) :
  sms_requests (tr1 ++ tr2) = sms_requests tr1 ++ sms_requests tr2.
Proof. apply List.filter_app. Qed.


Lemma send_message_empty (tr : list event) :
  send_message config env "" tr = (Return tt, tr).
Proof. reflexivity. Qed.

Lemma send_message_not_empty (message : string) (tr : list event) :
  message <> "" ->
  send_message config env message tr
  = match twilio env (tr ++ [request config message]) (TWILIO_SENDER_NUMBER config)
            (TWILIO_RECEIVER_NUMBER config) message with
    | Return status => (Return tt, (tr ++ [request config message]) ++ [PrintLine status])
    | Raise e => (Raise e, tr ++ [request config message])
    end.
Proof.
  intros Hne. unfold send_message.
  destruct (String.eqb_spec message ""); [contradiction |].
  unfold bind, emit, request. destruct (twilio env _ _ _ _); reflexivity.
Qed.

Lemma send_message_requests_one (message : string) (tr : list event) :
  message <> "" ->
  sms_requests (snd (send_message config env message tr))
  = sms_requests tr ++ [request config message].
Proof.
  intros Hne. rewrite send_message_not_empty by exact Hne.
  destruct (twilio env _ _ _ _); cbn [snd];
    rewrite ?sms_requests_app; cbn; rewrite ?app_nil_r; reflexivity.
Qed.

(** C7: on the empty string the notifier returns at once and adds no event,
    whatever the provider would answer; on any other message it submits one
    request, with the configured sender and receiver and the message as
    body, then prints the status or passes the provider's exception on. *)
Theorem send_message_one_request (message : string) (tr : list event) :
  send_message config env "" tr = (Return tt, tr)
  /\ (message <> "" ->
      send_message config env message tr
      = match twilio env (tr ++ [request config message]) (TWILIO_SENDER_NUMBER config)
                (TWILIO_RECEIVER_NUMBER config) message with
        | Return status => (Return tt, (tr ++ [request config message]) ++ [PrintLine status])
        | Raise e => (Raise e, tr ++ [request config message])
        end)
  /\ (message <> "" ->
      sms_requests (snd (send_message config env message tr))
      = sms_requests tr
        ++ [SmsCreate (TWILIO_SENDER_NUMBER config) (TWILIO_RECEIVER_NUMBER config)
              message]).
Proof.
  split; [apply send_message_empty |].
  split; intros Hne.
  - apply send_message_not_empty, Hne.
  - apply send_message_requests_one, Hne.
Qed.

(** The fetchers submit no SMS request. *)
Ltac run_step :=
  match goal with
  | |- context [match ?o with Return _ => _ | Raise _ => _ end] =>
      destruct o eqn:?
  | |- context [match ?o with Some _ => _ | None => _ end] =>
      destruct o eqn:?
  | |- context [if ?b then _ else _] => destruct b eqn:?
  end.

Lemma get_stock_difference_requests (stock_symbol : string) (tr : list event) :
  sms_requests (snd (get_stock_difference config env stock_symbol tr))
  = sms_requests tr.
Proof.
  unfold get_stock_difference, bind, emit, lift, raise_for_status, subscript,
    strftime, __get_stock_time, ret, raise.
  repeat (run_step; cbn [snd fst]);
    rewrite ?sms_requests_app; cbn; rewrite ?app_nil_r; reflexivity.
Qed.

Lemma get_news_requests (company_name : string) (tr : list event) :
  sms_requests (snd (get_news config env company_name tr)) = sms_requests tr.
Proof.
  unfold get_news, bind, emit, lift, raise_for_status, subscript, ret, raise.
  repeat (run_step; cbn [snd fst]);
    rewrite ?sms_requests_app; cbn; rewrite ?app_nil_r; reflexivity.
Qed.

Lemma send_message_create_sms (d : float) (hs : list article)
  (company_name : string) (tr : list event) :
  sms_requests (snd (send_message config env (create_sms str_float d hs company_name) tr))
  = sms_requests tr ++ [request config (create_sms str_float d hs company_name)].
Proof. apply send_message_requests_one, create_sms_not_empty. Qed.

Lemma notify_run (stock_symbol company_name : string) (d : float)
  (hs : list article) (tr tr1 tr2 : list event) :
  get_stock_difference config env stock_symbol tr = (Return d, tr1) ->
  get_news config env company_name tr1 = (Return hs, tr2) ->
  notify config env str_float stock_symbol company_name tr
  = send_message config env (create_sms str_float d hs company_name) tr2
  /\ sms_requests tr2 = sms_requests tr.
Proof.
  intros Hd Hn. split.
  - unfold notify, bind. rewrite Hd, Hn. reflexivity.
  - pose proof (get_stock_difference_requests stock_symbol tr) as H1.
    pose proof (get_news_requests company_name tr1) as H2.
    rewrite Hd in H1. rewrite Hn in H2. cbn [snd] in H1, H2. congruence.
Qed.

(** A turn of the loop that returns has submitted one request. *)
Lemma notify_requests (stock_symbol company_name : string) (tr tr' : list event) :
  notify config env str_float stock_symbol company_name tr = (Return tt, tr') ->
  length (sms_requests tr') = S (length (sms_requests tr)).
Proof.
  intros Hrun.
  destruct (get_stock_difference config env stock_symbol tr) as [[d | e] tr1] eqn:Hd.
  - destruct (get_news config env company_name tr1) as [[hs | e] tr2] eqn:Hn.
    + destruct (notify_run _ _ _ _ _ _ _ Hd Hn) as [Heq Htr2].
      rewrite Heq in Hrun.
      pose proof (send_message_create_sms d hs company_name tr2) as Hsend.
      rewrite Hrun in Hsend. cbn [snd] in Hsend.
      rewrite Hsend, Htr2, length_app. cbn. lia.
    + unfold notify, bind in Hrun. rewrite Hd, Hn in Hrun. discriminate.
  - unfold notify, bind in Hrun. rewrite Hd in Hrun. discriminate.
Qed.

Lemma for_each_requests {A : Type} (body : A -> M unit) :
  (forall x tr tr', body x tr = (Return tt, tr') ->
                    length (sms_requests tr') = S (length (sms_requests tr))) ->
  forall l tr tr',
    for_each body l tr = (Return tt, tr') ->
    length (sms_requests tr') = (length (sms_requests tr) + length l)%nat.
Proof.
  intros Hbody. induction l as [| x l IH]; intros tr tr' Hrun.
  - injection Hrun as <-. cbn. lia.
  - cbn [for_each] in Hrun. unfold bind in Hrun.
    destruct (body x tr) as [[[] | e] tr1] eqn:Hx; [| discriminate].
    apply Hbody in Hx. apply IH in Hrun. cbn [length]. lia.
Qed.

(** C9: the composed message is never empty, it starts with the header line
    and a blank line; so [send_message] on it always submits the request,
    and never returns with the events unchanged as it does on the empty
    string. In [main] every turn of the loop whose two fetches return hands
    such a message to [send_message], and a run that returns has submitted
    one request per watched stock. *)
Theorem create_sms_never_empty (d : float) (hs : list article) (company_name : string) :
  create_sms str_float d hs company_name <> ""
  /\ (exists rest,
        create_sms str_float d hs company_name
        = company_name +:+ ": "
          +:+ (if PrimFloat.ltb 0%float d then UP else DOWN)
          +:+ str_float d +:+ "%" +:+ LF +:+ LF +:+ rest)
  /\ (forall tr,
        sms_requests
          (snd (send_message config env (create_sms str_float d hs company_name) tr))
        = sms_requests tr ++ [request config (create_sms str_float d hs company_name)]
        /\ send_message config env (create_sms str_float d hs company_name) tr
           <> (Return tt, tr))
  /\ (forall stock_symbol tr tr1 tr2,
        get_stock_difference config env stock_symbol tr = (Return d, tr1) ->
        get_news config env company_name tr1 = (Return hs, tr2) ->
        notify config env str_float stock_symbol company_name tr
        = send_message config env (create_sms str_float d hs company_name) tr2)
  /\ (forall tr tr',
        main config env str_float tr = (Return tt, tr') ->
        length (sms_requests tr') = (length (sms_requests tr) + 5)%nat).
Proof.
  split; [apply create_sms_not_empty |].
  split.
  { rewrite create_sms_blocks. unfold header.
    rewrite !append_assoc. eexists. reflexivity. }
  split.
  { intros tr. split; [apply send_message_create_sms |].
    intros Heq. pose proof (send_message_create_sms d hs company_name tr) as H.
    rewrite Heq in H. cbn [snd] in H.
    apply (f_equal (@length event)) in H. rewrite length_app in H. cbn in H. lia. }
  split.
  { intros stock_symbol tr tr1 tr2 Hd Hn.
    apply (notify_run _ _ _ _ _ _ _ Hd Hn). }
  intros tr tr' Hrun. unfold main in Hrun.
  apply for_each_requests in Hrun; [exact Hrun |].
  intros [s c] t t' Hx. apply (notify_requests _ _ _ _ Hx).
Qed.

(** C8: when the news provider answers without an HTTP error and its body
    holds the list [all] of articles, [get_news] returns the first three
    entries of [all] in the provider's order, and all of [all] when it has
    fewer than three. *)
Theorem get_news_first_three (company_name : string) (tr : list event)
  (r : response news_data) (all : list article) :
  newsapi env
    (tr ++ [HttpGet "https://newsapi.org/v2/everything"
              [("q", company_name); ("apiKey", NEWS_API_KEY config)]])
    [("q", company_name); ("apiKey", NEWS_API_KEY config)] = Return r ->
  status_code r < 400 \/ 600 <= status_code r ->
  articles (json r) = Some all ->
  get_news config env company_name tr
  = (Return (take 3 all),
     tr ++ [HttpGet "https://newsapi.org/v2/everything"
              [("q", company_name); ("apiKey", NEWS_API_KEY config)]])
  /\ take 3 all ++ drop 3 all = all
  /\ length (take 3 all) = Nat.min 3 (length all)
  /\ ((length all < 3)%nat -> take 3 all = all).
Proof.
  intros Hget Hstatus Harticles. split; [| split; [| split]].
  - unfold get_news, bind, emit, raise_for_status, subscript, ret, slice3.
    rewrite Hget.
    replace ((400 <=? status_code r) && (status_code r <? 600)) with false
      by (symmetry; apply andb_false_iff; lia).
    rewrite Harticles. reflexivity.
  - apply take_drop.
  - apply length_take.
  - intros Hlen. apply take_ge. lia.
Qed.


(** With both closes found, the calculator is its arithmetic. *)
Lemma get_stock_difference_closes (stock_symbol : string) (tr tr' : list event)
  (yesterday_close two_days_ago_close : float) :
  closes config env stock_symbol tr yesterday_close two_days_ago_close tr' ->
  get_stock_difference config env stock_symbol tr
  = (obind
       (truediv
          (PrimFloat.mul
             (round2 (PrimFloat.sub yesterday_close two_days_ago_close)) 100%float)
          yesterday_close)
       (fun quotient => Return (round2 quotient)),
     tr').
Proof.
  intros (r & tz_name & tz & series & y & t2 & Hget & Hstatus & Htz & Hpytz
          & -> & Hy & Ht2 & Hseries & Hyc & Htc).
  unfold get_stock_difference, bind, emit, lift, raise_for_status, subscript,
    strftime, __get_stock_time, ret.
  fold (av_params config stock_symbol). rewrite Hget.
  replace ((400 <=? status_code r) && (status_code r <? 600)) with false
    by (symmetry; apply andb_false_iff; lia).
  rewrite Htz, Hpytz, Hy, Ht2, Hseries, Hyc, Htc.
  destruct (truediv _ _); reflexivity.
Qed.

(** C1, as the code has it: with yesterday's close [yc], not zero, and the
    close of the day before [tc] found in the series, the calculator returns
    [round(round(yc - tc, 2) * 100 / yc, 2)]: the difference is rounded to two
    decimals first, the rounded difference is multiplied by 100 and divided
    by [yc], and the quotient is rounded to two decimals. *)
Theorem get_stock_difference_rounds_twice (stock_symbol : string)
  (tr tr' : list event) (yesterday_close two_days_ago_close : float) :
  closes config env stock_symbol tr yesterday_close two_days_ago_close tr' ->
  PrimFloat.eqb yesterday_close 0%float = false ->
  get_stock_difference config env stock_symbol tr
  = (Return
       (round2
          (PrimFloat.div
             (PrimFloat.mul
                (round2 (PrimFloat.sub yesterday_close two_days_ago_close))
                100%float)
             yesterday_close)),
     tr').
Proof.
  intros Hcloses Hnz.
  rewrite (get_stock_difference_closes _ _ _ _ _ Hcloses).
  unfold truediv. rewrite Hnz. reflexivity.
Qed.

(** C10: nothing guards the division. When the close found for the resolved
    yesterday is zero, the calculator raises [ZeroDivisionError] and returns
    no percentage. *)
Theorem get_stock_difference_zero_close (stock_symbol : string)
  (tr tr' : list event) (yesterday_close two_days_ago_close : float) :
  closes config env stock_symbol tr yesterday_close two_days_ago_close tr' ->
  PrimFloat.eqb yesterday_close 0%float = true ->
  get_stock_difference config env stock_symbol tr = (Raise ZeroDivisionError, tr').
Proof.
  intros Hcloses Hz.
  rewrite (get_stock_difference_closes _ _ _ _ _ Hcloses).
  unfold truediv. rewrite Hz. reflexivity.
Qed.

End ScriptClaims.

(** ** The sample world *)


Lemma sample_closes (friday thursday : float) :
  closes sample_config (sample_env friday thursday) "TSLA" [] friday thursday
    (sample_price_events friday thursday).
Proof.
  exists (mk_response 200
            {| meta_time_zone := Some "US/Eastern";
               time_series_daily :=
                 Some {[ "2020-06-12" := friday; "2020-06-11" := thursday ]} |}).
  exists "US/Eastern", "US/Eastern".
  exists {[ "2020-06-12" := friday; "2020-06-11" := thursday ]}.
  exists (sub_days monday_2020_06_15 3), (sub_days monday_2020_06_15 4).
  repeat split; try reflexivity.
  cbn. left. lia.
Defined.

Lemma get_stock_difference_rounds_twice_witness :
  closes sample_config (sample_env 100 98) "TSLA" [] 100 98 (sample_price_events 100 98)
  /\ PrimFloat.eqb 100 0 = false
  /\ get_stock_difference sample_config (sample_env 100 98) "TSLA" []
     = (Return
          (round2
             (PrimFloat.div
                (PrimFloat.mul (round2 (PrimFloat.sub 100 98)) 100%float) 100)),
        sample_price_events 100 98).
Proof.
  split; [apply sample_closes |].
  split; [reflexivity |].
  apply (get_stock_difference_rounds_twice sample_config (sample_env 100 98)
           "TSLA" [] (sample_price_events 100 98) 100 98).
  - apply sample_closes.
  - reflexivity.
Defined.

(** The two examples of the specification: closes 100 and 98 give 2.0, closes
    98 and 100 give -2.04. *)
Example get_stock_difference_up :
  fst (get_stock_difference sample_config (sample_env 100 98) "TSLA" [])
  = Return 2%float.
Proof. vm_compute. reflexivity. Qed.

Example get_stock_difference_down :
  fst (get_stock_difference sample_config (sample_env 98 100) "TSLA" [])
  = Return (-2.04)%float.
Proof. vm_compute. reflexivity. Qed.


(** C1 as the specification states it fails: with yesterday's close 1.0 and
    the close of the day before 0.996, one rounding step gives 0.4, and the
    calculator returns 0.0, because the difference 0.004 is rounded to 0.0
    before it is multiplied. *)
Lemma get_stock_difference_not_rounded_once :
  PrimFloat.eqb 1 0 = false
  /\ closes sample_config (sample_env 1 close_0_996) "TSLA" [] 1 close_0_996
       (sample_price_events 1 close_0_996)
  /\ spec_percentage 1 close_0_996 = 0.4%float
  /\ fst (get_stock_difference sample_config (sample_env 1 close_0_996) "TSLA" [])
     = Return 0%float
  /\ fst (get_stock_difference sample_config (sample_env 1 close_0_996) "TSLA" [])
     <> Return (spec_percentage 1 close_0_996).
Proof.
  split; [reflexivity |].
  split; [apply sample_closes |].
  split; [vm_compute; reflexivity |].
  split; [vm_compute; reflexivity |].
  intros Heq. apply (f_equal returned_bits) in Heq.
  vm_compute in Heq. discriminate.
Qed.

Lemma get_stock_difference_zero_close_witness :
  closes sample_config (sample_env 0 98) "TSLA" [] 0 98 (sample_price_events 0 98)
  /\ PrimFloat.eqb 0 0 = true
  /\ get_stock_difference sample_config (sample_env 0 98) "TSLA" []
     = (Raise ZeroDivisionError, sample_price_events 0 98).
Proof.
  split; [apply sample_closes |].
  split; [reflexivity |].
  apply (get_stock_difference_zero_close sample_config (sample_env 0 98)
           "TSLA" [] (sample_price_events 0 98) 0 98).
  - apply sample_closes.
  - reflexivity.
Defined.

Lemma get_news_first_three_witness :
  get_news sample_config (sample_env 100 98) "Tesla Inc" []
  = (Return (take 3 sample_articles),
     [HttpGet "https://newsapi.org/v2/everything"
        [("q", "Tesla Inc"); ("apiKey", "news-key")]])
  /\ take 3 sample_articles ++ drop 3 sample_articles = sample_articles
  /\ length (take 3 sample_articles) = Nat.min 3 (length sample_articles)
  /\ ((length sample_articles < 3)%nat -> take 3 sample_articles = sample_articles).
Proof.
  apply (get_news_first_three sample_config (sample_env 100 98) "Tesla Inc" []
           (mk_response 200 {| articles := Some sample_articles |})
           sample_articles).
  - reflexivity.
  - left. cbn. lia.
  - reflexivity.
Defined.

Example get_news_sample_titles :
  option_map (map title)
    (match fst (get_news sample_config (sample_env 100 98) "Tesla Inc" []) with
     | Return l => Some l
     | Raise _ => None
     end)
  = Some ["Deliveries up"; "New plant"; "Recall"].
Proof. reflexivity. Qed.

Lemma send_message_one_request_witness :
  send_message sample_config (sample_env 100 98) "" [] = (Return tt, [])
  /\ send_message sample_config (sample_env 100 98) "TSLA up" []
     = (Return tt, [SmsCreate "+15550100" "+15550199" "TSLA up"; PrintLine "queued"])
  /\ sms_requests (snd (send_message sample_config (sample_env 100 98) "TSLA up" []))
     = [SmsCreate "+15550100" "+15550199" "TSLA up"].
Proof.
  destruct (send_message_one_request sample_config (sample_env 100 98) "TSLA up" [])
    as (Hempty & Hsent & Hone).
  split; [exact Hempty |].
  split; [apply Hsent; discriminate | apply Hone; discriminate].
Defined.

Lemma brief_strips_one_line_tags_witness :
  In (mk_article "New plant" "Opens <a href='x'>soon</a>" "https://news.example/2")
     (take 3 sample_articles)
  /\ Re.sub "Opens <a href='x'>soon</a>" = "Opens soon"
  /\ exists pre post,
       create_sms str_cents 2%float (take 3 sample_articles) "Tesla Inc"
       = pre +:+ ("Brief: " +:+ Re.sub "Opens <a href='x'>soon</a>" +:+ LF) +:+ post.
Proof.
  split; [right; left; reflexivity |].
  split; [reflexivity |].
  apply (brief_strips_one_line_tags str_cents 2%float (take 3 sample_articles)
           "Tesla Inc"
           (mk_article "New plant" "Opens <a href='x'>soon</a>"
              "https://news.example/2")).
  right. left. reflexivity.
Defined.

(** C6: the claim fails on the code at a description whose tag is broken
    over two lines. The description [<b], line feed, [>bold] holds one
    [<...>] group; with the group removed, as the claim has it, the brief
    would read [bold]. The substitution of [create_sms] leaves the
    description as it is, because [.] in [<.*?>] takes no line feed, and the
    composed message carries the group in its "Brief:" line. *)
Theorem brief_keeps_two_line_tag :
  description two_line_tag_article = "<b" +:+ LF +:+ ">bold"
  /\ SpecStrip.strip (description two_line_tag_article) = "bold"
  /\ Re.sub (description two_line_tag_article) = "<b" +:+ LF +:+ ">bold"
  /\ block two_line_tag_article
     = "Headline: News" +:+ LF
       +:+ "Brief: <b" +:+ LF +:+ ">bold" +:+ LF
       +:+ "Link: https://news.example/5" +:+ LF +:+ LF
  /\ create_sms str_cents 0%float [two_line_tag_article] "ACME"
     = "ACME: " +:+ DOWN +:+ "0.0%" +:+ LF +:+ LF
       +:+ "Headline: News" +:+ LF
       +:+ "Brief: <b" +:+ LF +:+ ">bold" +:+ LF
       +:+ "Link: https://news.example/5" +:+ LF +:+ LF
  /\ block two_line_tag_article
     <> "Headline: News" +:+ LF
        +:+ "Brief: " +:+ SpecStrip.strip (description two_line_tag_article) +:+ LF
        +:+ "Link: https://news.example/5" +:+ LF +:+ LF.
Proof. repeat split; try reflexivity. vm_compute. discriminate. Qed.

(** The examples of the specification for the header. *)
Example create_sms_up : create_sms str_cents 2.07%float [] "TSLA"
                        = "TSLA: " +:+ UP +:+ "2.07%" +:+ LF +:+ LF.
Proof. reflexivity. Qed.

Example create_sms_down : create_sms str_cents (-1.5)%float [] "TSLA"
                          = "TSLA: " +:+ DOWN +:+ "-1.5%" +:+ LF +:+ LF.
Proof. reflexivity. Qed.

Example create_sms_zero : create_sms str_cents 0%float [] "TSLA"
                          = "TSLA: " +:+ DOWN +:+ "0.0%" +:+ LF +:+ LF.
Proof. reflexivity. Qed.

(** One run of [main] on the sample world: five requests, the first one for
    Tesla with the three briefs stripped. *)
Example main_sample_requests :
  length (sms_requests (snd (main sample_config (sample_env 100 98) str_cents [])))
  = 5%nat.
Proof. vm_compute. reflexivity. Qed.

Example main_sample_first_body :
  head (sms_requests (snd (main sample_config (sample_env 100 98) str_cents [])))
  = Some (SmsCreate "+15550100" "+15550199"
            ("Tesla Inc: " +:+ UP +:+ "2.0%" +:+ LF +:+ LF
             +:+ "Headline: Deliveries up" +:+ LF
             +:+ "Brief: A record quarter" +:+ LF
             +:+ "Link: https://news.example/1" +:+ LF +:+ LF
             +:+ "Headline: New plant" +:+ LF
             +:+ "Brief: Opens soon" +:+ LF
             +:+ "Link: https://news.example/2" +:+ LF +:+ LF
             +:+ "Headline: Recall" +:+ LF
             +:+ "Brief: Minor" +:+ LF
             +:+ "Link: https://news.example/3" +:+ LF +:+ LF)).
Proof. vm_compute. reflexivity. Qed.


Lemma create_sms_never_empty_witness :
  create_sms str_cents 2%float (take 3 sample_articles) "Tesla Inc" <> ""
  /\ notify sample_config (sample_env 100 98) str_cents "TSLA" "Tesla Inc" []
     = send_message sample_config (sample_env 100 98)
         (create_sms str_cents 2%float (take 3 sample_articles) "Tesla Inc")
         (sample_price_events 100 98
          ++ [HttpGet "https://newsapi.org/v2/everything"
                [("q", "Tesla Inc"); ("apiKey", "news-key")]]).
Proof.
  destruct (create_sms_never_empty sample_config (sample_env 100 98) str_cents
              2%float (take 3 sample_articles) "Tesla Inc")
    as (Hne & _ & _ & Hnotify & _).
  split; [exact Hne |].
  apply (Hnotify "TSLA" [] (sample_price_events 100 98)).
  - vm_compute. reflexivity.
  - reflexivity.
Defined.

(** * Further properties of the script *)

(** ** The resolver, beyond the claims *)

Lemma sub_days_sub_days (t : datetime) (a b : Z) :
  sub_days (sub_days t a) b = sub_days t (a + b).
Proof. unfold sub_days. cbn. f_equal. lia. Qed.

Lemma weekday_cases (t : datetime) :
  weekday t = 0 \/ weekday t = 1 \/ weekday t = 2 \/ weekday t = 3
  \/ weekday t = 4 \/ weekday t = 5 \/ weekday t = 6.
Proof. pose proof (weekday_range t). lia. Qed.

(** Runs the resolver at a time whose weekday is known and a literal shift:
    the guards are closed booleans then. *)
Ltac resolve_at Hw :=
  unfold __get_date_days_shift;
  rewrite ?weekday_sub_days, ?Hw;
  repeat match goal with
         | |- context [if ?b then _ else _] =>
             let v := eval vm_compute in b in
             change b with v; cbv beta iota
         end.

Ltac same_day :=
  rewrite ?sub_days_sub_days; unfold sub_days; repeat f_equal; lia.

Ltac resolved_days t Hw k1 k2 :=
  exists (sub_days t k1), (sub_days t k2);
  repeat split; try (resolve_at Hw; same_day); cbn [ordinal sub_days]; lia.

(** X1: two trading days back is one trading day back, taken twice; and the
    two resolved days lie before the current one, the earlier first. *)
Theorem resolver_twice (stock_time : datetime) :
  exists yesterday two_days_ago : datetime,
    __get_date_days_shift stock_time 1 = Return (Some yesterday)
    /\ __get_date_days_shift stock_time 2 = Return (Some two_days_ago)
    /\ __get_date_days_shift yesterday 1 = Return (Some two_days_ago)
    /\ ordinal two_days_ago < ordinal yesterday < ordinal stock_time.
Proof.
  destruct (weekday_cases stock_time) as [Hw | [Hw | [Hw | [Hw | [Hw | [Hw | Hw]]]]]].
  - resolved_days stock_time Hw 3 4.
  - resolved_days stock_time Hw 1 4.
  - resolved_days stock_time Hw 1 2.
  - resolved_days stock_time Hw 1 2.
  - resolved_days stock_time Hw 1 2.
  - resolved_days stock_time Hw 1 2.
  - resolved_days stock_time Hw 2 3.
Qed.

Ltac skipped_days t Hw k :=
  exists (sub_days t k);
  split; [resolve_at Hw; same_day |];
  cbn [ordinal sub_days microsecond_of_day tzname];
  split; [lia |]; split; [reflexivity |]; split; [reflexivity |];
  intros j Hj; rewrite weekday_sub_days, Hw;
  assert (Hcase : j = 1 \/ j = 2) by lia;
  destruct Hcase as [-> | ->]; try lia; vm_compute; split; discriminate.

(** X2: the day that shift 1 resolves is at most three days back, keeps the
    time of day and the zone, and every day skipped between it and the
    current day is a Saturday or a Sunday. *)
Theorem resolver_yesterday_skips_weekend (stock_time : datetime) :
  exists yesterday : datetime,
    __get_date_days_shift stock_time 1 = Return (Some yesterday)
    /\ 1 <= ordinal stock_time - ordinal yesterday <= 3
    /\ microsecond_of_day yesterday = microsecond_of_day stock_time
    /\ tzname yesterday = tzname stock_time
    /\ forall j, 0 < j < ordinal stock_time - ordinal yesterday ->
                 5 <= weekday (sub_days stock_time j) <= 6.
Proof.
  destruct (weekday_cases stock_time) as [Hw | [Hw | [Hw | [Hw | [Hw | [Hw | Hw]]]]]].
  - skipped_days stock_time Hw 3.
  - skipped_days stock_time Hw 1.
  - skipped_days stock_time Hw 1.
  - skipped_days stock_time Hw 1.
  - skipped_days stock_time Hw 1.
  - skipped_days stock_time Hw 1.
  - skipped_days stock_time Hw 2.
Qed.

(** X3: whatever the shift, the resolver raises or returns a date: the end
    of the function, where Python would return [None], is never reached. *)
Theorem resolver_never_none (stock_time : datetime) (days : Z) :
  __get_date_days_shift stock_time days <> Return None.
Proof.
  destruct (weekday_cases stock_time) as [Hw | [Hw | [Hw | [Hw | [Hw | [Hw | Hw]]]]]];
    unfold __get_date_days_shift; rewrite Hw;
    destruct ((days <? 1) || (days >? 2)); try discriminate;
    destruct (days =? 1); cbn; discriminate.
Qed.

(** ** The substitution of [create_sms], beyond the claims *)

Module ReMore.

Import Re ReFacts.

Lemma sub_unmatched (s : string) : search s = false -> sub s = s.
Proof.
  induction s as [| c s IH]; [reflexivity |].
  cbn [search]. destruct (match_tag (String c s)) eqn:Hm; [discriminate |].
  intros Hs. rewrite (sub_keep _ _ Hm), (IH Hs). reflexivity.
Qed.

Lemma lazy_any_then_gt_exact (mid post : string) :
  contains_char GT mid = false ->
  contains_char NL mid = false ->
  lazy_any_then_gt (mid +:+ String GT post) = Some post.
Proof.
  induction mid as [| c mid IH];
    rewrite ?append_empty, ?append_cons; cbn [contains_char lazy_any_then_gt].
  - intros _ _. rewrite Ascii.eqb_refl. reflexivity.
  - intros Hgt Hnl.
    apply orb_false_iff in Hgt as [Hgt Hgt'].
    apply orb_false_iff in Hnl as [Hnl Hnl'].
    rewrite (Ascii.eqb_sym c GT), Hgt, (Ascii.eqb_sym c NL), Hnl.
    apply IH; assumption.
Qed.

Lemma lazy_any_then_gt_next_line (s t : string) :
  lazy_any_then_gt (s +:+ String NL t)
  = option_map (fun rest => rest +:+ String NL t) (lazy_any_then_gt s).
Proof.
  induction s as [| c s IH]; [reflexivity |].
  rewrite append_cons. cbn [lazy_any_then_gt].
  destruct (Ascii.eqb c GT); [reflexivity |].
  destruct (Ascii.eqb c NL); [reflexivity | exact IH].
Qed.

Lemma match_tag_next_line (s t : string) :
  match_tag (s +:+ String NL t)
  = match s with
    | EmptyString => None
    | String _ _ => option_map (fun rest => rest +:+ String NL t) (match_tag s)
    end.
Proof.
  destruct s as [| c s]; [reflexivity |].
  rewrite append_cons. cbn [match_tag].
  destruct (Ascii.eqb c LT); [apply lazy_any_then_gt_next_line | reflexivity].
Qed.

End ReMore.

(** X4: the substitution changes a text exactly when the pattern matches
    somewhere in it, and applying it a second time changes nothing. *)
Theorem sub_fixpoint (s : string) :
  (Re.sub s = s <-> Re.search s = false)
  /\ Re.sub (Re.sub s) = Re.sub s.
Proof.
  split; [split |].
  - intros Heq. rewrite <- Heq. apply ReFacts.search_sub.
  - apply ReMore.sub_unmatched.
  - apply ReMore.sub_unmatched, ReFacts.search_sub.
Qed.

(** X5: the substitution works line by line: a line feed is kept, and what
    is removed before it and behind it does not depend on the other side. *)
Theorem sub_line_by_line (s t : string) :
  Re.sub (s +:+ String Re.NL t) = Re.sub s +:+ String Re.NL (Re.sub t).
Proof.
  induction s as [| s rest Hm IH | c s Hm IH] using ReFacts.sub_ind.
  - rewrite ReFacts.append_empty. apply ReFacts.sub_cons_other. reflexivity.
  - rewrite (ReFacts.sub_match _ _ Hm), <- IH. apply ReFacts.sub_match.
    rewrite ReMore.match_tag_next_line, Hm.
    destruct s; [discriminate | reflexivity].
  - rewrite (ReFacts.sub_keep _ _ Hm), !ReFacts.append_cons, <- IH.
    apply ReFacts.sub_keep.
    pose proof (ReMore.match_tag_next_line (String c s) t) as Hline.
    rewrite ReFacts.append_cons, Hm in Hline. exact Hline.
Qed.

(** X6: a [<], a text without [>] and without line feed, and a [>] are
    removed as a whole; the text before them, when it holds no [<], is kept
    as it is, and the scan goes on behind the [>]. *)
Theorem sub_removes_tag (pre mid post : string) :
  Re.contains_char Re.LT pre = false ->
  Re.contains_char Re.GT mid = false ->
  Re.contains_char Re.NL mid = false ->
  Re.sub (pre +:+ String Re.LT (mid +:+ String Re.GT post)) = pre +:+ Re.sub post.
Proof.
  intros Hpre Hgt Hnl. induction pre as [| c pre IH].
  - rewrite !ReFacts.append_empty. apply ReFacts.sub_match.
    cbn [Re.match_tag]. rewrite Ascii.eqb_refl.
    apply ReMore.lazy_any_then_gt_exact; assumption.
  - cbn [Re.contains_char] in Hpre. apply orb_false_iff in Hpre as [Hc Hpre].
    rewrite !ReFacts.append_cons.
    rewrite ReFacts.sub_cons_other by (rewrite Ascii.eqb_sym; exact Hc).
    f_equal. apply IH, Hpre.
Qed.

Lemma sub_removes_tag_witness :
  Re.contains_char Re.LT "Opens " = false
  /\ Re.contains_char Re.GT "a href='x'" = false
  /\ Re.contains_char Re.NL "a href='x'" = false
  /\ Re.sub ("Opens " +:+ String Re.LT ("a href='x'" +:+ String Re.GT "soon"))
     = "Opens " +:+ Re.sub "soon".
Proof.
  split; [reflexivity |]. split; [reflexivity |]. split; [reflexivity |].
  apply (sub_removes_tag "Opens " "a href='x'" "soon"); reflexivity.
Defined.

(** X7: the substitution never makes a text longer. *)
Theorem sub_not_longer (s : string) :
  (String.length (Re.sub s) <= String.length s)%nat.
Proof.
  induction s as [| s rest Hm IH | c s Hm IH] using ReFacts.sub_ind.
  - apply le_n.
  - rewrite (ReFacts.sub_match _ _ Hm).
    apply ReFacts.match_tag_shorter in Hm. lia.
  - rewrite (ReFacts.sub_keep _ _ Hm). cbn [String.length]. lia.
Qed.

(** ** The fetchers, beyond the claims *)

Section FetcherFacts.

Variable config : Config.
Variable env : Env.

Ltac run_step :=
  match goal with
  | |- context [match ?o with Return _ => _ | Raise _ => _ end] =>
      destruct o eqn:?
  | |- context [match ?o with Some _ => _ | None => _ end] =>
      destruct o eqn:?
  | |- context [if ?b then _ else _] => destruct b eqn:?
  end.

Lemma status_ok (r : Z) :
  r < 400 \/ 600 <= r -> (400 <=? r) && (r <? 600) = false.
Proof. intros H. apply andb_false_iff. lia. Qed.

Lemma status_error (r : Z) : 400 <= r < 600 -> (400 <=? r) && (r <? 600) = true.
Proof. intros H. apply andb_true_iff. lia. Qed.

Lemma get_news_trace (company_name : string) (tr : list event) :
  snd (get_news config env company_name tr)
  = tr ++ [HttpGet "https://newsapi.org/v2/everything"
             [("q", company_name); ("apiKey", NEWS_API_KEY config)]].
Proof.
  unfold get_news, bind, emit, raise_for_status, subscript, ret, raise.
  repeat (run_step; cbn [snd fst]); reflexivity.
Qed.

Lemma get_stock_difference_trace (stock_symbol : string) (tr : list event) :
  exists new,
    snd (get_stock_difference config env stock_symbol tr) = tr ++ new
    /\ sms_requests new = [].
Proof.
  unfold get_stock_difference, bind, emit, lift, raise_for_status, subscript,
    strftime, __get_stock_time, ret, raise.
  repeat (run_step; cbn [snd fst]);
    rewrite <- ?app_assoc; eexists; (split; [reflexivity |]); reflexivity.
Qed.

(** X8: whatever the provider answers, [get_news] adds one event: the
    request to the news provider, with the company as query and the API key. *)
Theorem get_news_one_request (company_name : string) (tr : list event) :
  snd (get_news config env company_name tr)
  = tr ++ [HttpGet "https://newsapi.org/v2/everything"
             [("q", company_name); ("apiKey", NEWS_API_KEY config)]].
Proof. apply get_news_trace. Qed.

(** X9: whatever the provider answers, [get_stock_difference] adds the
    request to the price provider and, at most, the print of the body it
    got: it prints only a body that came without HTTP error and names a
    known time zone. *)
Theorem get_stock_difference_events (stock_symbol : string) (tr : list event) :
  snd (get_stock_difference config env stock_symbol tr)
  = tr ++ [HttpGet "https://www.alphavantage.co/query"
             (av_params config stock_symbol)]
  \/ exists (r : response daily_data) (tz_name tz : string),
       alphavantage env
         (tr ++ [HttpGet "https://www.alphavantage.co/query"
                   (av_params config stock_symbol)])
         (av_params config stock_symbol) = Return r
       /\ (status_code r < 400 \/ 600 <= status_code r)
       /\ meta_time_zone (json r) = Some tz_name
       /\ pytz_timezone env tz_name = Return tz
       /\ snd (get_stock_difference config env stock_symbol tr)
          = (tr ++ [HttpGet "https://www.alphavantage.co/query"
                      (av_params config stock_symbol)])
            ++ [PrintData (json r)].
Proof.
  unfold get_stock_difference, bind, emit, lift, raise_for_status, subscript,
    strftime, __get_stock_time, ret, raise.
  fold (av_params config stock_symbol).
  destruct (alphavantage env _ _) as [r | e] eqn:Hget; [| left; reflexivity].
  destruct ((400 <=? status_code r) && (status_code r <? 600)) eqn:Hstatus;
    [left; reflexivity |].
  destruct (meta_time_zone (json r)) as [tz_name |] eqn:Htz; [| left; reflexivity].
  destruct (pytz_timezone env tz_name) as [tz | e] eqn:Hpytz; [| left; reflexivity].
  right. exists r, tz_name, tz.
  split; [reflexivity |].
  split; [apply andb_false_iff in Hstatus; lia |].
  split; [exact Htz |]. split; [exact Hpytz |].
  repeat (run_step; cbn [snd fst]); reflexivity.
Qed.

(** X10: a price answer with an HTTP status from 400 to 599 makes
    [get_stock_difference] raise [HTTPError] with that status; the body is
    neither read nor printed, and the clock is not asked. *)
Theorem get_stock_difference_http_error (stock_symbol : string) (tr : list event)
  (r : response daily_data) :
  alphavantage env
    (tr ++ [HttpGet "https://www.alphavantage.co/query"
              (av_params config stock_symbol)])
    (av_params config stock_symbol) = Return r ->
  400 <= status_code r < 600 ->
  get_stock_difference config env stock_symbol tr
  = (Raise (HTTPError (status_code r)),
     tr ++ [HttpGet "https://www.alphavantage.co/query"
              (av_params config stock_symbol)]).
Proof.
  intros Hget Hstatus.
  unfold get_stock_difference, bind, emit, raise_for_status, raise.
  fold (av_params config stock_symbol).
  rewrite Hget, (status_error _ Hstatus). reflexivity.
Qed.

(** X11: a news answer with an HTTP status from 400 to 599 makes [get_news]
    raise [HTTPError] with that status, even when its body holds articles. *)
Theorem get_news_http_error (company_name : string) (tr : list event)
  (r : response news_data) :
  newsapi env
    (tr ++ [HttpGet "https://newsapi.org/v2/everything"
              [("q", company_name); ("apiKey", NEWS_API_KEY config)]])
    [("q", company_name); ("apiKey", NEWS_API_KEY config)] = Return r ->
  400 <= status_code r < 600 ->
  get_news config env company_name tr
  = (Raise (HTTPError (status_code r)),
     tr ++ [HttpGet "https://newsapi.org/v2/everything"
              [("q", company_name); ("apiKey", NEWS_API_KEY config)]]).
Proof.
  intros Hget Hstatus.
  unfold get_news, bind, emit, raise_for_status, raise.
  rewrite Hget, (status_error _ Hstatus). reflexivity.
Qed.

(** X12: whenever [get_news] returns, the provider answered without HTTP
    error, the result holds at most three articles, and they are the first
    ones of the provider's list. *)
Theorem get_news_returns (company_name : string) (tr tr' : list event)
  (news : list article) :
  get_news config env company_name tr = (Return news, tr') ->
  (length news <= 3)%nat
  /\ exists (r : response news_data) (all : list article),
       newsapi env tr' [("q", company_name); ("apiKey", NEWS_API_KEY config)]
       = Return r
       /\ (status_code r < 400 \/ 600 <= status_code r)
       /\ articles (json r) = Some all
       /\ news = take 3 all.
Proof.
  intros Hrun.
  pose proof (get_news_trace company_name tr) as Htr.
  rewrite Hrun in Htr. cbn [snd] in Htr. subst tr'.
  revert Hrun.
  unfold get_news, bind, emit, raise_for_status, subscript, ret, raise, slice3.
  destruct (newsapi env _ _) as [r | e] eqn:Hget; [| discriminate].
  destruct ((400 <=? status_code r) && (status_code r <? 600)) eqn:Hstatus;
    [discriminate |].
  destruct (articles (json r)) as [all |] eqn:Hall; [| discriminate].
  intros [= <-]. split.
  - rewrite length_take. lia.
  - exists r, all. repeat split; try assumption.
    apply andb_false_iff in Hstatus. lia.
Qed.

(** X13: a resolved day that the series does not hold makes
    [get_stock_difference] raise [KeyError] with the date as key, after the
    body was printed: yesterday's date when that one is missing, the date of
    the day before when only that one is missing. *)
Theorem get_stock_difference_missing_day (stock_symbol : string)
  (tr tr' : list event) (series : gmap string float)
  (stock_time yesterday two_days_ago : datetime) :
  answers config env stock_symbol tr series stock_time tr' ->
  __get_date_days_shift stock_time 1 = Return (Some yesterday) ->
  __get_date_days_shift stock_time 2 = Return (Some two_days_ago) ->
  (series !! strftime_Ymd yesterday = None ->
   get_stock_difference config env stock_symbol tr
   = (Raise (KeyError (strftime_Ymd yesterday)), tr'))
  /\ (is_Some (series !! strftime_Ymd yesterday) ->
      series !! strftime_Ymd two_days_ago = None ->
      get_stock_difference config env stock_symbol tr
      = (Raise (KeyError (strftime_Ymd two_days_ago)), tr')).
Proof.
  intros (r & tz_name & tz & Hget & Hstatus & Htz & Hpytz & -> & -> & Hseries)
         Hy Ht2.
  split; [intros Hnone | intros [yc Hyc] Hnone];
    unfold get_stock_difference, bind, emit, lift, raise_for_status, subscript,
      strftime, __get_stock_time, ret, raise;
    fold (av_params config stock_symbol);
    rewrite Hget, (status_ok _ Hstatus), Htz, Hpytz, Hy, Ht2, Hseries;
    rewrite ?Hyc, Hnone; reflexivity.
Qed.

End FetcherFacts.

(** ** The composer and the loop, beyond the claims *)

Section OrchestratorFacts.

Variable config : Config.
Variable env : Env.
Variable str_float : float -> string.

Lemma append_empty_r (s : string) : s +:+ "" = s.
Proof.
  induction s as [| c s IH]; [reflexivity |].
  rewrite ReFacts.append_cons, IH. reflexivity.
Qed.

Lemma concat_cons (x : string) (xs : list string) :
  String.concat "" (x :: xs) = x +:+ String.concat "" xs.
Proof. destruct xs; cbn [String.concat]; [rewrite append_empty_r |]; reflexivity. Qed.

(** X14: the whole text of the message: the header line, an empty line, and
    for every article in the order of the list its headline line, its brief
    line with the substitution applied to the description only, its link
    line and an empty line. Title and link are taken as they are. *)
Theorem create_sms_text (d : float) (hs : list article) (company_name : string) :
  create_sms str_float d hs company_name
  = company_name +:+ ": "
    +:+ (if PrimFloat.ltb 0%float d then UP else DOWN)
    +:+ str_float d +:+ "%" +:+ LF +:+ LF
    +:+ String.concat ""
          (map (fun a => "Headline: " +:+ title a +:+ LF
                         +:+ "Brief: " +:+ Re.sub (description a) +:+ LF
                         +:+ "Link: " +:+ url a +:+ LF +:+ LF)
               hs).
Proof.
  rewrite create_sms_blocks. unfold header. rewrite !append_assoc.
  do 7 f_equal.
  induction hs as [| a hs IH]; [reflexivity |].
  cbn [blocks fold_right map]. fold (blocks hs).
  rewrite concat_cons, block_unfold, IH, !append_assoc. reflexivity.
Qed.

Lemma create_sms_composed_for (d : float) (hs : list article) (company_name : string) :
  composed_for (create_sms str_float d hs company_name) company_name.
Proof.
  split; [apply create_sms_not_empty |].
  rewrite create_sms_blocks. unfold header. rewrite !append_assoc.
  eexists. reflexivity.
Qed.

Lemma send_message_trace (message : string) (tr : list event) :
  message <> "" ->
  exists rest,
    snd (send_message config env message tr) = tr ++ request config message :: rest
    /\ sms_requests rest = [].
Proof.
  intros Hne. rewrite send_message_not_empty by exact Hne.
  destruct (twilio env _ _ _ _); cbn [snd]; rewrite <- ?app_assoc;
    eexists; (split; [reflexivity |]); reflexivity.
Qed.

(** What one turn of the loop adds to the events, whatever its outcome. *)
Lemma notify_trace (stock_symbol company_name : string) (tr : list event) :
  exists (new : list event) (bodies : list string),
    snd (notify config env str_float stock_symbol company_name tr) = tr ++ new
    /\ sms_requests new = map (request config) bodies
    /\ (length bodies <= 1)%nat
    /\ Forall (fun body => composed_for body company_name) bodies
    /\ (fst (notify config env str_float stock_symbol company_name tr) = Return tt ->
        length bodies = 1%nat).
Proof.
  destruct (get_stock_difference_trace config env stock_symbol tr)
    as (new1 & Htr1 & Hsms1).
  unfold notify, bind.
  destruct (get_stock_difference config env stock_symbol tr) as [[d | e] tr1].
  2: { cbn [snd fst] in *. exists new1, []. repeat split; auto; discriminate. }
  cbn [snd] in Htr1. subst tr1.
  pose proof (get_news_trace config env company_name (tr ++ new1)) as Htr2.
  destruct (get_news config env company_name (tr ++ new1)) as [[hs | e] tr2];
    cbn [snd fst] in *; subst tr2.
  2: { eexists; exists []. rewrite <- app_assoc.
       split; [reflexivity |]. rewrite sms_requests_app, Hsms1.
       repeat split; auto; discriminate. }
  destruct (send_message_trace (create_sms str_float d hs company_name)
              ((tr ++ new1) ++ [HttpGet "https://newsapi.org/v2/everything"
                 [("q", company_name); ("apiKey", NEWS_API_KEY config)]])
              (create_sms_not_empty str_float d hs company_name))
    as (rest & Htr3 & Hsms3).
  rewrite Htr3. eexists. exists [create_sms str_float d hs company_name].
  rewrite <- !app_assoc. split; [reflexivity |].
  rewrite !sms_requests_app, Hsms1. cbn. fold (sms_requests rest). rewrite Hsms3.
  repeat split; auto.
  constructor; [apply create_sms_composed_for | constructor].
Qed.

(** What the loop adds to the events over a watchlist, whatever its outcome. *)
Lemma for_each_notify_trace (watchlist : list (string * string)) :
  forall tr : list event,
  exists (new : list event) (bodies : list string),
    snd (for_each (fun p => notify config env str_float (fst p) (snd p)) watchlist tr)
    = tr ++ new
    /\ sms_requests new = map (request config) bodies
    /\ (length bodies <= length watchlist)%nat
    /\ Forall2 composed_for bodies (take (length bodies) (map snd watchlist))
    /\ (fst (for_each (fun p => notify config env str_float (fst p) (snd p))
               watchlist tr) = Return tt ->
        length bodies = length watchlist).
Proof.
  induction watchlist as [| [s c] l IH]; intros tr.
  - exists [], []. cbn. rewrite app_nil_r. repeat split; auto.
  - destruct (notify_trace s c tr) as (new1 & bodies1 & Htr1 & Hsms1 & Hlen1 & Hall1 & Hret1).
    cbn [for_each fst snd]. unfold bind.
    destruct (notify config env str_float s c tr) as [[[] | e] tr1];
      cbn [fst snd] in *; subst tr1.
    + destruct bodies1 as [| b [| b' bodies1]]; cbn in Hlen1;
        [specialize (Hret1 eq_refl); discriminate | | lia].
      destruct (IH (tr ++ new1)) as (new2 & bodies2 & Htr2 & Hsms2 & Hlen2 & Hall2 & Hret2).
      exists (new1 ++ new2), (b :: bodies2).
      rewrite Htr2, app_assoc, sms_requests_app, Hsms1, Hsms2.
      split; [reflexivity |]. split; [reflexivity |].
      cbn [length map take]. split; [lia |].
      split; [constructor; [apply (Forall_inv Hall1) | exact Hall2] |].
      intros Hret. rewrite (Hret2 Hret). reflexivity.
    + exists new1, bodies1. split; [reflexivity |]. split; [exact Hsms1 |].
      cbn [length map]. split; [lia |].
      split; [| discriminate].
      destruct bodies1 as [| b [| b' bodies1]]; cbn in Hlen1; [constructor | | lia].
      cbn [length take]. constructor; [apply (Forall_inv Hall1) | constructor].
Qed.

(** X15: whatever the providers answer, [main] only adds events; its SMS
    requests go from the configured sender to the configured receiver, at
    most one per watched stock and in the order of the watchlist, each with a
    body that is not empty and starts with the company and a colon. A run
    that returns has one request for each of the five stocks. *)
Theorem main_requests (tr : list event) :
  exists (new : list event) (bodies : list string),
    snd (main config env str_float tr) = tr ++ new
    /\ sms_requests new
       = map (SmsCreate (TWILIO_SENDER_NUMBER config) (TWILIO_RECEIVER_NUMBER config))
           bodies
    /\ (length bodies <= 5)%nat
    /\ Forall2 (fun body company_name =>
                  body <> "" /\ exists rest, body = company_name +:+ ": " +:+ rest)
         bodies (take (length bodies) COMPANIES)
    /\ (fst (main config env str_float tr) = Return tt -> length bodies = 5%nat).
Proof.
  destruct (for_each_notify_trace (zip STOCKS COMPANIES) tr)
    as (new & bodies & Htr & Hsms & Hlen & Hall & Hret).
  exists new, bodies. repeat split; assumption.
Qed.

(** X16: when the price query or the news query of a turn raises, the turn
    raises the same exception and no SMS request is submitted in it. *)
Theorem notify_fetch_failure (stock_symbol company_name : string)
  (tr tr1 tr2 : list event) (e : exception) (d : float) :
  (get_stock_difference config env stock_symbol tr = (Raise e, tr1) ->
   notify config env str_float stock_symbol company_name tr = (Raise e, tr1)
   /\ sms_requests tr1 = sms_requests tr)
  /\ (get_stock_difference config env stock_symbol tr = (Return d, tr1) ->
      get_news config env company_name tr1 = (Raise e, tr2) ->
      notify config env str_float stock_symbol company_name tr = (Raise e, tr2)
      /\ sms_requests tr2 = sms_requests tr).
Proof.
  split.
  - intros Hd. split; [unfold notify, bind; rewrite Hd; reflexivity |].
    pose proof (get_stock_difference_requests config env stock_symbol tr) as H.
    rewrite Hd in H. exact H.
  - intros Hd Hn. split; [unfold notify, bind; rewrite Hd, Hn; reflexivity |].
    pose proof (get_stock_difference_requests config env stock_symbol tr) as H1.
    pose proof (get_news_requests config env company_name tr1) as H2.
    rewrite Hd in H1. rewrite Hn in H2. cbn [snd] in H1, H2. congruence.
Qed.

Lemma for_each_app {A : Type} (body : A -> M unit) (l1 l2 : list A) (tr : list event) :
  for_each body (l1 ++ l2) tr
  = bind (for_each body l1) (fun _ => for_each body l2) tr.
Proof.
  revert tr. induction l1 as [| x l1 IH]; intros tr; [reflexivity |].
  cbn [for_each app]. unfold bind in *.
  destruct (body x tr) as [[[] | e] tr1]; [apply IH | reflexivity].
Qed.

(** X17: the first turn of the loop that raises ends [main]: [main] raises
    the same exception with the events up to there, and the stocks behind it
    in the watchlist get no query and no SMS. *)
Theorem main_stops_at_first_failure (before behind : list (string * string))
  (stock_symbol company_name : string) (tr tr1 tr2 : list event) (e : exception) :
  zip STOCKS COMPANIES = before ++ (stock_symbol, company_name) :: behind ->
  for_each (fun p => notify config env str_float (fst p) (snd p)) before tr
  = (Return tt, tr1) ->
  notify config env str_float stock_symbol company_name tr1 = (Raise e, tr2) ->
  main config env str_float tr = (Raise e, tr2).
Proof.
  intros Hsplit Hbefore Hturn. unfold main. rewrite Hsplit, for_each_app.
  unfold bind at 1. rewrite Hbefore.
  cbn [for_each fst snd]. unfold bind. rewrite Hturn. reflexivity.
Qed.

End OrchestratorFacts.

(** ** The outage world *)

Lemma sub_line_by_line_sample :
  Re.sub ("a <b>c" +:+ String Re.NL "d <e" +:+ String Re.NL "f> g")
  = "a c" +:+ String Re.NL "d <e" +:+ String Re.NL "f> g".
Proof. reflexivity. Qed.

Lemma get_stock_difference_http_error_witness :
  400 <= 503 < 600
  /\ get_stock_difference sample_config outage_env "FB" []
     = (Raise (HTTPError 503),
        [HttpGet "https://www.alphavantage.co/query" (av_params sample_config "FB")]).
Proof.
  split; [lia |].
  apply (get_stock_difference_http_error sample_config outage_env "FB" []
           (mk_response 503 {| meta_time_zone := None; time_series_daily := None |})).
  - reflexivity.
  - cbn. lia.
Defined.

Lemma get_news_http_error_witness :
  400 <= 429 < 600
  /\ get_news sample_config outage_env "Amazon.com Inc" []
     = (Raise (HTTPError 429),
        [HttpGet "https://newsapi.org/v2/everything"
           [("q", "Amazon.com Inc"); ("apiKey", "news-key")]]).
Proof.
  split; [lia |].
  apply (get_news_http_error sample_config outage_env "Amazon.com Inc" []
           (mk_response 429 {| articles := Some sample_articles |})).
  - reflexivity.
  - cbn. lia.
Defined.

Lemma get_news_returns_witness :
  get_news sample_config (sample_env 100 98) "Tesla Inc" []
  = (Return (take 3 sample_articles),
     [HttpGet "https://newsapi.org/v2/everything"
        [("q", "Tesla Inc"); ("apiKey", "news-key")]])
  /\ (length (take 3 sample_articles) <= 3)%nat.
Proof.
  split; [reflexivity |].
  apply (get_news_returns sample_config (sample_env 100 98) "Tesla Inc" []
           [HttpGet "https://newsapi.org/v2/everything"
              [("q", "Tesla Inc"); ("apiKey", "news-key")]]
           (take 3 sample_articles)).
  reflexivity.
Defined.

Lemma outage_answers (stock_symbol : string) (series : gmap string float) :
  alphavantage outage_env [] (av_params sample_config stock_symbol)
  = Return (mk_response 200
              {| meta_time_zone := Some "US/Eastern";
                 time_series_daily := Some series |}) ->
  answers sample_config outage_env stock_symbol [] series monday_2020_06_15
    (outage_price_events stock_symbol series).
Proof.
  intros Hget.
  exists (mk_response 200
            {| meta_time_zone := Some "US/Eastern";
               time_series_daily := Some series |}).
  exists "US/Eastern", "US/Eastern".
  split; [exact Hget |].
  split; [cbn; left; lia |].
  repeat split; reflexivity.
Defined.

Lemma get_stock_difference_missing_day_witness :
  get_stock_difference sample_config outage_env "SIEGY" []
  = (Raise (KeyError "2020-06-12"),
     outage_price_events "SIEGY" {[ "2020-06-11" := 98%float ]})
  /\ get_stock_difference sample_config outage_env "AAPL" []
     = (Raise (KeyError "2020-06-11"),
        outage_price_events "AAPL" {[ "2020-06-12" := 100%float ]}).
Proof.
  split.
  - apply (proj1 (get_stock_difference_missing_day sample_config outage_env
                    "SIEGY" [] _ {[ "2020-06-11" := 98%float ]}
                    monday_2020_06_15
                    (sub_days monday_2020_06_15 3) (sub_days monday_2020_06_15 4)
                    (outage_answers "SIEGY" _ eq_refl) eq_refl eq_refl)).
    reflexivity.
  - apply (proj2 (get_stock_difference_missing_day sample_config outage_env
                    "AAPL" [] _ {[ "2020-06-12" := 100%float ]}
                    monday_2020_06_15
                    (sub_days monday_2020_06_15 3) (sub_days monday_2020_06_15 4)
                    (outage_answers "AAPL" _ eq_refl) eq_refl eq_refl)).
    + eexists. reflexivity.
    + reflexivity.
Defined.

Lemma notify_fetch_failure_witness :
  notify sample_config outage_env str_cents "FB" "Facebook Inc" []
  = (Raise (HTTPError 503),
     [HttpGet "https://www.alphavantage.co/query" (av_params sample_config "FB")])
  /\ notify sample_config outage_env str_cents "AMZN" "Amazon.com Inc" []
     = (Raise (HTTPError 429),
        outage_price_events "AMZN"
          {[ "2020-06-12" := 100%float; "2020-06-11" := 98%float ]}
        ++ [HttpGet "https://newsapi.org/v2/everything"
              [("q", "Amazon.com Inc"); ("apiKey", "news-key")]]).
Proof.
  split.
  - apply (proj1 (notify_fetch_failure sample_config outage_env str_cents
                    "FB" "Facebook Inc" [] _ [] (HTTPError 503) 0%float)).
    reflexivity.
  - apply (proj2 (notify_fetch_failure sample_config outage_env str_cents
                    "AMZN" "Amazon.com Inc" []
                    (outage_price_events "AMZN"
                       {[ "2020-06-12" := 100%float; "2020-06-11" := 98%float ]})
                    _ (HTTPError 429) 2%float)).
    + vm_compute. reflexivity.
    + reflexivity.
Defined.

Lemma main_stops_at_first_failure_witness :
  zip STOCKS COMPANIES
  = [("TSLA", "Tesla Inc")] ++ ("FB", "Facebook Inc")
      :: [("SIEGY", "SIEMENS AG"); ("AAPL", "Apple Inc"); ("AMZN", "Amazon.com Inc")]
  /\ fst (main sample_config outage_env str_cents []) = Raise (HTTPError 503)
  /\ length (sms_requests (snd (main sample_config outage_env str_cents []))) = 1%nat.
Proof.
  split; [reflexivity |].
  rewrite (main_stops_at_first_failure sample_config outage_env str_cents
             [("TSLA", "Tesla Inc")]
             [("SIEGY", "SIEMENS AG"); ("AAPL", "Apple Inc"); ("AMZN", "Amazon.com Inc")]
             "FB" "Facebook Inc" []
             (snd (notify sample_config outage_env str_cents "TSLA" "Tesla Inc" []))
             (snd (notify sample_config outage_env str_cents "TSLA" "Tesla Inc" [])
              ++ [HttpGet "https://www.alphavantage.co/query"
                    (av_params sample_config "FB")])
             (HTTPError 503)).
  - split; vm_compute; reflexivity.
  - reflexivity.
  - vm_compute. reflexivity.
  - vm_compute. reflexivity.
Defined.

(** ** What the calculator can return and raise *)

Lemma resolver_some (stock_time : datetime) (days : Z) :
  days = 1 \/ days = 2 ->
  exists d, __get_date_days_shift stock_time days = Return (Some d).
Proof.
  intros [-> | ->];
    destruct (weekday_cases stock_time) as [Hw | [Hw | [Hw | [Hw | [Hw | [Hw | Hw]]]]]];
    eexists; resolve_at Hw; reflexivity.
Qed.

Section CalculatorFacts.

Variable config : Config.
Variable env : Env.

(** X18: whenever [get_stock_difference] returns, the provider answered
    without HTTP error, both resolved days were in the series, yesterday's
    close was not zero, and the value is the twice rounded quotient of these
    two closes. *)
Theorem get_stock_difference_returns (stock_symbol : string) (tr tr' : list event)
  (d : float) :
  get_stock_difference config env stock_symbol tr = (Return d, tr') ->
  exists yesterday_close two_days_ago_close : float,
    closes config env stock_symbol tr yesterday_close two_days_ago_close tr'
    /\ PrimFloat.eqb yesterday_close 0%float = false
    /\ d = round2
             (PrimFloat.div
                (PrimFloat.mul
                   (round2 (PrimFloat.sub yesterday_close two_days_ago_close))
                   100%float)
                yesterday_close).
Proof.
  unfold get_stock_difference, bind, emit, lift, raise_for_status, subscript,
    strftime, __get_stock_time, ret, raise, truediv.
  fold (av_params config stock_symbol).
  destruct (alphavantage env _ _) as [r | e] eqn:Hget; [| discriminate].
  destruct ((400 <=? status_code r) && (status_code r <? 600)) eqn:Hstatus;
    [discriminate |].
  destruct (meta_time_zone (json r)) as [tz_name |] eqn:Htz; [| discriminate].
  destruct (pytz_timezone env tz_name) as [tz | e] eqn:Hpytz; [| discriminate].
  match goal with
  | |- context [__get_date_days_shift ?t 1] =>
      destruct (resolver_some t 1 (or_introl eq_refl)) as [y Hy];
      destruct (resolver_some t 2 (or_intror eq_refl)) as [t2 Ht2]
  end.
  rewrite Hy, Ht2.
  destruct (time_series_daily (json r)) as [series |] eqn:Hseries; [| discriminate].
  destruct (series !! strftime_Ymd y) as [yc |] eqn:Hyc; [| discriminate].
  destruct (series !! strftime_Ymd t2) as [tc |] eqn:Htc; [| discriminate].
  destruct (PrimFloat.eqb yc 0%float) eqn:Hz; [discriminate |].
  intros [= <- <-]. exists yc, tc.
  split; [| split; [exact Hz | reflexivity]].
  exists r, tz_name, tz, series, y, t2.
  apply andb_false_iff in Hstatus.
  repeat split; try assumption; try reflexivity. lia.
Qed.

(** X19: an exception of [get_stock_difference] is an [HTTPError] of the
    answer's status, a [KeyError], a [ZeroDivisionError], or the exception
    that the price request or the time zone lookup raised. The [ValueError]
    of the resolver never comes out of the calculator. *)
Theorem get_stock_difference_raises (stock_symbol : string) (tr tr' : list event)
  (e : exception) :
  get_stock_difference config env stock_symbol tr = (Raise e, tr') ->
  (exists status, 400 <= status < 600 /\ e = HTTPError status)
  \/ (exists key, e = KeyError key)
  \/ e = ZeroDivisionError
  \/ alphavantage env
       (tr ++ [HttpGet "https://www.alphavantage.co/query"
                 (av_params config stock_symbol)])
       (av_params config stock_symbol) = Raise e
  \/ (exists tz_name, pytz_timezone env tz_name = Raise e).
Proof.
  unfold get_stock_difference, bind, emit, lift, raise_for_status, subscript,
    strftime, __get_stock_time, ret, raise, truediv.
  fold (av_params config stock_symbol).
  destruct (alphavantage env _ _) as [r | e0] eqn:Hget;
    [| intros [= <- <-]; auto 6].
  destruct ((400 <=? status_code r) && (status_code r <? 600)) eqn:Hstatus.
  { intros [= <- <-]. left. exists (status_code r).
    apply andb_true_iff in Hstatus. split; [lia | reflexivity]. }
  destruct (meta_time_zone (json r)) as [tz_name |] eqn:Htz;
    [| intros [= <- <-]; eauto 6].
  destruct (pytz_timezone env tz_name) as [tz | e0] eqn:Hpytz;
    [| intros [= <- <-]; eauto 8].
  match goal with
  | |- context [__get_date_days_shift ?t 1] =>
      destruct (resolver_some t 1 (or_introl eq_refl)) as [y Hy];
      destruct (resolver_some t 2 (or_intror eq_refl)) as [t2 Ht2]
  end.
  rewrite Hy, Ht2.
  destruct (time_series_daily (json r)) as [series |];
    [| intros [= <- <-]; eauto 6].
  destruct (series !! strftime_Ymd y) as [yc |]; [| intros [= <- <-]; eauto 6].
  destruct (series !! strftime_Ymd t2) as [tc |]; [| intros [= <- <-]; eauto 6].
  destruct (PrimFloat.eqb yc 0%float); [| discriminate].
  intros [= <- <-]. auto.
Qed.

End CalculatorFacts.

Lemma get_stock_difference_returns_witness :
  get_stock_difference sample_config (sample_env 98 100) "TSLA" []
  = (Return (-2.04)%float, sample_price_events 98 100)
  /\ exists yesterday_close two_days_ago_close : float,
       closes sample_config (sample_env 98 100) "TSLA" []
         yesterday_close two_days_ago_close (sample_price_events 98 100)
       /\ PrimFloat.eqb yesterday_close 0%float = false
       /\ (-2.04)%float
          = round2
              (PrimFloat.div
                 (PrimFloat.mul
                    (round2 (PrimFloat.sub yesterday_close two_days_ago_close))
                    100%float)
                 yesterday_close).
Proof.
  split; [vm_compute; reflexivity |].
  apply (get_stock_difference_returns sample_config (sample_env 98 100) "TSLA" []
           (sample_price_events 98 100) (-2.04)%float).
  vm_compute. reflexivity.
Defined.

Lemma get_stock_difference_raises_witness :
  get_stock_difference sample_config outage_env "FB" []
  = (Raise (HTTPError 503),
     [HttpGet "https://www.alphavantage.co/query" (av_params sample_config "FB")])
  /\ ((exists status, 400 <= status < 600 /\ HTTPError 503 = HTTPError status)
      \/ (exists key, HTTPError 503 = KeyError key)
      \/ HTTPError 503 = ZeroDivisionError
      \/ alphavantage outage_env
           ([] ++ [HttpGet "https://www.alphavantage.co/query"
                     (av_params sample_config "FB")])
           (av_params sample_config "FB") = Raise (HTTPError 503)
      \/ (exists tz_name, pytz_timezone outage_env tz_name = Raise (HTTPError 503))).
Proof.
  split; [reflexivity |].
  apply (get_stock_difference_raises sample_config outage_env "FB" []
           [HttpGet "https://www.alphavantage.co/query" (av_params sample_config "FB")]
           (HTTPError 503)).
  reflexivity.
Defined.

(** ** The substitution against the stripping of the specification *)

Module SpecStripFacts.

Import Re SpecStrip ReFacts.

Lemma any_then_gt_shorter (s rest : string) :
  any_then_gt s = Some rest -> (String.length rest < String.length s)%nat.
Proof.
  revert rest. induction s as [| c s IH]; intros rest; cbn [any_then_gt].
  - discriminate.
  - destruct (Ascii.eqb c GT).
    + intros [= <-]. cbn. lia.
    + intros H. apply IH in H. cbn. lia.
Qed.

Lemma match_group_shorter (s rest : string) :
  match_group s = Some rest -> (String.length rest < String.length s)%nat.
Proof.
  destruct s as [| c s]; cbn [match_group]; [discriminate |].
  destruct (Ascii.eqb c LT); [| discriminate].
  intros H. apply any_then_gt_shorter in H. cbn. lia.
Qed.

Lemma strip_fuel_enough (fuel : nat) :
  forall s : string, (String.length s <= fuel)%nat -> strip_fuel fuel s = strip s.
Proof.
  assert (Hany : forall f1 f2 s,
             (String.length s <= f1)%nat -> (String.length s <= f2)%nat ->
             strip_fuel f1 s = strip_fuel f2 s).
  { induction f1 as [| f1 IH]; intros f2 s H1 H2.
    - destruct s; [| cbn in H1; lia]. destruct f2; reflexivity.
    - destruct f2 as [| f2].
      + destruct s; [reflexivity | cbn in H2; lia].
      + cbn [strip_fuel]. destruct (match_group s) as [rest |] eqn:Hm.
        * apply match_group_shorter in Hm. apply IH; lia.
        * destruct s as [| c s]; [reflexivity |].
          cbn in H1, H2. f_equal. apply IH; lia. }
  intros s Hs. unfold strip. apply Hany; [exact Hs | lia].
Qed.

Lemma strip_match (s rest : string) :
  match_group s = Some rest -> strip s = strip rest.
Proof.
  intros Hm. pose proof (match_group_shorter _ _ Hm) as Hlen.
  unfold strip at 1. destruct (String.length s) as [| n] eqn:Hn; [lia |].
  cbn [strip_fuel]. rewrite Hm. apply strip_fuel_enough. lia.
Qed.

Lemma strip_keep (c : ascii) (s : string) :
  match_group (String c s) = None -> strip (String c s) = String c (strip s).
Proof.
  intros Hm. unfold strip at 1. cbn [String.length strip_fuel]. rewrite Hm.
  reflexivity.
Qed.

(** On one line the lazy match of the code is the group of the
    specification, and what is left holds no line feed either. *)
Lemma lazy_any_then_gt_one_line (s : string) :
  contains_char NL s = false ->
  lazy_any_then_gt s = any_then_gt s
  /\ forall rest, any_then_gt s = Some rest -> contains_char NL rest = false.
Proof.
  induction s as [| c s IH]; cbn [contains_char lazy_any_then_gt any_then_gt].
  - intros _. split; [reflexivity | discriminate].
  - intros H. apply orb_false_iff in H as [Hc Hs].
    destruct (Ascii.eqb c GT).
    + split; [reflexivity |]. intros rest [= <-]. exact Hs.
    + rewrite (Ascii.eqb_sym c NL), Hc. apply IH, Hs.
Qed.

Lemma match_tag_one_line (s : string) :
  contains_char NL s = false ->
  match_tag s = match_group s
  /\ forall rest, match_group s = Some rest -> contains_char NL rest = false.
Proof.
  destruct s as [| c s]; cbn [contains_char match_tag match_group].
  - intros _. split; [reflexivity | discriminate].
  - intros H. apply orb_false_iff in H as [Hc Hs].
    destruct (Ascii.eqb c LT); [| split; [reflexivity | discriminate]].
    apply lazy_any_then_gt_one_line, Hs.
Qed.

(** On a text without line feed the code does what the specification says. *)
Lemma sub_one_line (s : string) :
  contains_char NL s = false -> sub s = strip s.
Proof.
  induction s as [| s rest Hm IH | c s Hm IH] using sub_ind; intros Hnl.
  - reflexivity.
  - destruct (match_tag_one_line s Hnl) as [Heq Hrest].
    rewrite Heq in Hm.
    rewrite (sub_match s rest) by (rewrite Heq; exact Hm).
    rewrite (strip_match _ _ Hm). apply IH, Hrest, Hm.
  - destruct (match_tag_one_line _ Hnl) as [Heq _].
    rewrite (sub_keep _ _ Hm).
    rewrite Heq in Hm. rewrite (strip_keep _ _ Hm).
    cbn [contains_char] in Hnl. apply orb_false_iff in Hnl as [_ Hs].
    f_equal. apply IH, Hs.
Qed.

End SpecStripFacts.
